(** * provider-slicervm: the VM adapter (connector / external)

    A shallow embedding of [internal/controller/vm/vm.go] and of the VM
    schema of [apis/vm/v1alpha1/vm_types.go].

    The managed resource is a pointer in the Go code and every operation
    mutates it in place; here each operation is a state transformer over
    the resource together with the log of the remote calls it issued, and
    returns the Go pair (value, error). *)

From Stdlib Require Import ZArith Strings.String Strings.Byte List.
From stdpp Require Import base option strings list gmap.
Import ListNotations.

Local Open Scope string_scope.
Local Open Scope Z_scope.

(** ** Errors ([github.com/pkg/errors])

    An error is observed through its message only. *)

Module errors.

Definition error : Type := string.

Definition New (message : string) : error := message.

(** [Wrap] puts the message in front of the cause's message. *)
Definition Wrap (err : error) (message : string) : error :=
  message ++ ": " ++ err.

(** [Errorf] with the one format used by the adapter, ["...%s"]. *)
Definition Errorf_s (prefix arg : string) : error := prefix ++ arg.

End errors.

Abbreviation error := errors.error.

(** The Go pair (value, error); [None] is the nil error. *)
Definition result (A : Type) : Type := (A * option error)%type.

(** ** [time.Time]

    The adapter never computes with a time: it compares a deletion
    timestamp with nil and calls [String()] on creation times. A time is
    therefore given by the instant and by what [String()] renders. *)

Record Time : Type := mkTime {
  UnixNano : Z;
  Time_String : string
}.

(** ** The Slicer SDK ([github.com/slicervm/sdk]) *)

Module sdk.

Record SlicerNode : Type := {
  Hostname : string;
  IP : string;
  CreatedAt : Time
}.

Record SlicerCreateNodeRequest : Type := {
  RamGB : Z;
  CPUs : Z;
  Userdata : string;
  SSHKeys : list string;
  ImportUser : string;
  Tags : list string
}.

Definition set_RamGB (v : Z) (req : SlicerCreateNodeRequest) : SlicerCreateNodeRequest :=
  {| RamGB := v; CPUs := CPUs req; Userdata := Userdata req;
     SSHKeys := SSHKeys req; ImportUser := ImportUser req; Tags := Tags req |}.

Definition set_CPUs (v : Z) (req : SlicerCreateNodeRequest) : SlicerCreateNodeRequest :=
  {| RamGB := RamGB req; CPUs := v; Userdata := Userdata req;
     SSHKeys := SSHKeys req; ImportUser := ImportUser req; Tags := Tags req |}.

Definition set_SSHKeys (v : list string) (req : SlicerCreateNodeRequest) : SlicerCreateNodeRequest :=
  {| RamGB := RamGB req; CPUs := CPUs req; Userdata := Userdata req;
     SSHKeys := v; ImportUser := ImportUser req; Tags := Tags req |}.

Definition set_ImportUser (v : string) (req : SlicerCreateNodeRequest) : SlicerCreateNodeRequest :=
  {| RamGB := RamGB req; CPUs := CPUs req; Userdata := Userdata req;
     SSHKeys := SSHKeys req; ImportUser := v; Tags := Tags req |}.

Definition set_Tags (v : list string) (req : SlicerCreateNodeRequest) : SlicerCreateNodeRequest :=
  {| RamGB := RamGB req; CPUs := CPUs req; Userdata := Userdata req;
     SSHKeys := SSHKeys req; ImportUser := ImportUser req; Tags := v |}.

Record SlicerCreateNodeResponse : Type := {
  resp_Hostname : string;
  resp_IP : string;
  resp_CreatedAt : Time
}.

(** What a method of the client hands back: an error, or the value (the
    SDK returns a non-nil response with a nil error). *)
Definition answer (A : Type) : Type := (error + A)%type.

(** The client is an object: it is given by what its three methods answer.
    [ctx] is dropped. *)
Record SlicerClient : Type := {
  GetHostGroupNodes : string -> answer (list SlicerNode);
  CreateNode : string -> SlicerCreateNodeRequest -> answer SlicerCreateNodeResponse;
  DeleteVM : string -> string -> answer unit
}.

End sdk.

(** A remote call as it leaves the adapter. *)
Inductive RemoteCall : Type :=
| CallGetHostGroupNodes (hostGroup : string)
| CallCreateNode (hostGroup : string) (req : sdk.SlicerCreateNodeRequest)
| CallDeleteVM (hostGroup : string) (hostname : string).

(** ** Conditions ([crossplane-runtime/apis/common/v1]) *)

Module xpv1.

Inductive ConditionType : Type := TypeReady | TypeSynced.
Inductive ConditionStatus : Type := ConditionTrue | ConditionFalse | ConditionUnknown.
Inductive ConditionReason : Type :=
| ReasonAvailable | ReasonUnavailable | ReasonCreating | ReasonDeleting
| ReasonReconcileSuccess | ReasonReconcileError | ReasonNone.

(** Modelled from the spec: the condition type of crossplane-runtime is not
    part of the sources; a condition is its type, status and reason (the
    transition time is left out). *)
Record Condition : Type := {
  Type_ : ConditionType;
  Status : ConditionStatus;
  Reason : ConditionReason
}.

Definition ConditionType_eqb (a b : ConditionType) : bool :=
  match a, b with
  | TypeReady, TypeReady | TypeSynced, TypeSynced => true
  | _, _ => false
  end.

Definition Available : Condition :=
  {| Type_ := TypeReady; Status := ConditionTrue; Reason := ReasonAvailable |}.

Definition Creating : Condition :=
  {| Type_ := TypeReady; Status := ConditionFalse; Reason := ReasonCreating |}.

Definition Deleting : Condition :=
  {| Type_ := TypeReady; Status := ConditionFalse; Reason := ReasonDeleting |}.

(** Modelled from the spec: [ConditionedStatus.SetConditions] for one
    condition. Every condition of the same type is overwritten; when there
    is none the condition is appended. *)
Definition SetCondition (s : list Condition) (cond : Condition) : list Condition :=
  if existsb (fun existing => ConditionType_eqb (Type_ existing) (Type_ cond)) s
  then map (fun existing =>
              if ConditionType_eqb (Type_ existing) (Type_ cond)
              then cond else existing) s
  else s ++ [cond].

Definition SetConditions (s : list Condition) (c : list Condition) : list Condition :=
  fold_left SetCondition c s.

(** Modelled from the spec: [ConditionedStatus.GetCondition], the first
    condition of the type, or an unknown condition of that type. *)
Definition GetCondition (s : list Condition) (ct : ConditionType) : Condition :=
  match find (fun c => ConditionType_eqb (Type_ c) ct) s with
  | Some c => c
  | None => {| Type_ := ct; Status := ConditionUnknown; Reason := ReasonNone |}
  end.

End xpv1.

(** ** The VM schema ([apis/vm/v1alpha1/vm_types.go]) *)

Module v1alpha1.

Record VMParameters : Type := {
  HostGroup : string;
  CPUs : Z;
  RAMGB : Z;
  Userdata : string;
  SSHKeys : list string;
  ImportUser : string;
  Tags : list string
}.

Record VMObservation : Type := {
  Hostname : string;
  IP : string;
  State : string;
  CreatedAt : string
}.

(** Modelled from the spec: the provider-config reference of the embedded
    managed-resource spec, a kind discriminator and a name. *)
Record ProviderConfigReference : Type := {
  ref_Kind : string;
  ref_Name : string
}.

(** The embedded [xpv2.ManagedResourceSpec] is kept to the one field the
    adapter reads; the reference is a pointer and may be nil. *)
Record VMSpec : Type := {
  ProviderConfigReference_ : option ProviderConfigReference;
  ForProvider : VMParameters
}.

(** The embedded [xpv1.ResourceStatus] is kept to its conditions. *)
Record VMStatus : Type := {
  Conditions : list xpv1.Condition;
  AtProvider : VMObservation
}.

(** The part of [metav1.ObjectMeta] the adapter reads or writes. *)
Record ObjectMeta : Type := {
  Name : string;
  Namespace : string;
  DeletionTimestamp : option Time;
  Annotations : gmap string string
}.

Record VM : Type := {
  Meta : ObjectMeta;
  Spec : VMSpec;
  Status : VMStatus
}.

Definition set_Annotations (a : gmap string string) (cr : VM) : VM :=
  {| Meta := {| Name := Name (Meta cr);
                Namespace := Namespace (Meta cr);
                DeletionTimestamp := DeletionTimestamp (Meta cr);
                Annotations := a |};
     Spec := Spec cr;
     Status := Status cr |}.

Definition set_AtProvider (o : VMObservation) (cr : VM) : VM :=
  {| Meta := Meta cr;
     Spec := Spec cr;
     Status := {| Conditions := Conditions (Status cr); AtProvider := o |} |}.

Definition set_Hostname (v : string) (o : VMObservation) : VMObservation :=
  {| Hostname := v; IP := IP o; State := State o; CreatedAt := CreatedAt o |}.

Definition set_IP (v : string) (o : VMObservation) : VMObservation :=
  {| Hostname := Hostname o; IP := v; State := State o; CreatedAt := CreatedAt o |}.

Definition set_State (v : string) (o : VMObservation) : VMObservation :=
  {| Hostname := Hostname o; IP := IP o; State := v; CreatedAt := CreatedAt o |}.

Definition set_CreatedAt (v : string) (o : VMObservation) : VMObservation :=
  {| Hostname := Hostname o; IP := IP o; State := State o; CreatedAt := v |}.

(** Modelled from the spec: the generated [VM.SetConditions], which hands
    the conditions to the status. *)
Definition SetConditions (c : list xpv1.Condition) (cr : VM) : VM :=
  {| Meta := Meta cr;
     Spec := Spec cr;
     Status := {| Conditions := xpv1.SetConditions (Conditions (Status cr)) c;
                  AtProvider := AtProvider (Status cr) |} |}.

End v1alpha1.

Abbreviation VM := v1alpha1.VM.

(** ** Metadata helpers ([crossplane-runtime/pkg/meta]) *)

Module meta.

Definition AnnotationKeyExternalName : string := "crossplane.io/external-name".

(** Modelled from the spec: a resource is marked for deletion when its
    deletion timestamp is set. *)
Definition WasDeleted (o : v1alpha1.ObjectMeta) : bool :=
  match v1alpha1.DeletionTimestamp o with
  | Some _ => true
  | None => false
  end.

(** Modelled from the spec: the external name is the value of the
    external-name annotation, the empty string when there is none. *)
Definition GetExternalName (cr : VM) : string :=
  default "" (v1alpha1.Annotations (v1alpha1.Meta cr) !! AnnotationKeyExternalName).

(** Modelled from the spec: setting the external name writes that
    annotation and no other. *)
Definition SetExternalName (cr : VM) (name : string) : VM :=
  v1alpha1.set_Annotations
    (<[AnnotationKeyExternalName := name]> (v1alpha1.Annotations (v1alpha1.Meta cr))) cr.

End meta.

(** ** What the reconciler gets back ([crossplane-runtime/pkg/reconciler/managed]) *)

Module managed.

(** A nil map and an empty map are both the empty map. *)
Record ExternalObservation : Type := {
  ResourceExists : bool;
  ResourceUpToDate : bool;
  ResourceLateInitialized : bool;
  ConnectionDetails : gmap string (list byte);
  Diff : string
}.

Record ExternalCreation : Type := {
  creation_ConnectionDetails : gmap string (list byte)
}.

Record ExternalUpdate : Type := {
  update_ConnectionDetails : gmap string (list byte)
}.

Record ExternalDelete : Type := { }.

(** The zero values, [managed.ExternalObservation{}] and the like. *)
Definition ExternalObservation_zero : ExternalObservation :=
  {| ResourceExists := false; ResourceUpToDate := false;
     ResourceLateInitialized := false; ConnectionDetails := ∅; Diff := "" |}.

Definition ExternalCreation_zero : ExternalCreation :=
  {| creation_ConnectionDetails := ∅ |}.

Definition ExternalUpdate_zero : ExternalUpdate :=
  {| update_ConnectionDetails := ∅ |}.

Definition ExternalDelete_zero : ExternalDelete := Build_ExternalDelete.

End managed.

(** ** The managed resource handed to the adapter

    [resource.Managed] is an interface; the adapter asserts that the value
    behind it is a [*v1alpha1.VM]. *)

Inductive Managed : Type :=
| ManagedVM (cr : VM)
| ManagedOther (o : v1alpha1.ObjectMeta).

(** ** The adapter's effects

    The state an operation works on: the resource behind the pointer and
    the remote calls issued so far, oldest first. *)

Record World : Type := {
  w_cr : VM;
  w_calls : list RemoteCall
}.

Definition M (A : Type) : Type := World -> A * World.

#[global] Instance M_ret : MRet M := fun A a w => (a, w).

#[global] Instance M_bind : MBind M :=
  fun A B k m w => let '(a, w') := m w in k a w'.

(** Read the resource. *)
Definition load : M VM := fun w => (w_cr w, w).

(** An assignment through the pointer. *)
Definition store (f : VM -> VM) : M unit :=
  fun w => (tt, {| w_cr := f (w_cr w); w_calls := w_calls w |}).

(** A call on the SDK client: it is logged and its answer handed on. *)
Definition remote {A : Type} (c : RemoteCall) (answer : A) : M A :=
  fun w => (answer, {| w_cr := w_cr w; w_calls := w_calls w ++ [c] |}).

(** What an operation leaves behind: the resource, the remote calls it
    issued, and the returned pair. *)
Record Outcome (A : Type) : Type := {
  mg_after : Managed;
  calls : list RemoteCall;
  returned : result A
}.

Arguments mg_after {A} _.
Arguments calls {A} _.
Arguments returned {A} _.

Definition run {A : Type} (m : M (result A)) (cr : VM) : Outcome A :=
  let '(r, w) := m {| w_cr := cr; w_calls := [] |} in
  {| mg_after := ManagedVM (w_cr w); calls := w_calls w; returned := r |}.

(** An operation that stops at the type assertion. *)
Definition refused {A : Type} (mg : Managed) (r : result A) : Outcome A :=
  {| mg_after := mg; calls := []; returned := r |}.

(** [cr.Status.AtProvider.F = v] *)
Definition setAtProvider (f : v1alpha1.VMObservation -> v1alpha1.VMObservation) : M unit :=
  store (fun cr => v1alpha1.set_AtProvider (f (v1alpha1.AtProvider (v1alpha1.Status cr))) cr).

(** ** The adapter ([internal/controller/vm/vm.go]) *)

Definition errNotVM : string := "managed resource is not a VM custom resource".
Definition errTrackPCUsage : string := "cannot track ProviderConfig usage".
Definition errGetPC : string := "cannot get ProviderConfig".
Definition errGetCPC : string := "cannot get ClusterProviderConfig".
Definition errGetCreds : string := "cannot get credentials".
Definition errNewClient : string := "cannot create new Slicer client".

Record external : Type := {
  client : sdk.SlicerClient;
  hostGroup : string
}.

(** The scan of [Observe]: the first node, in list order, whose hostname
    is the external name; [None] is the nil [found]. *)
Fixpoint found (nodes : list sdk.SlicerNode) (externalName : string)
  : option sdk.SlicerNode :=
  match nodes with
  | [] => None
  | node :: rest =>
      if String.eqb (sdk.Hostname node) externalName then Some node
      else found rest externalName
  end.

Definition observe (e : external) : M (result managed.ExternalObservation) :=
  cr ← load;
  if meta.WasDeleted (v1alpha1.Meta cr) then
    mret (managed.ExternalObservation_zero, None)
  else
  let externalName := meta.GetExternalName cr in
  if String.eqb externalName "" then
    mret (managed.ExternalObservation_zero, None)
  else
  let hostGroup :=
    let hg := v1alpha1.HostGroup (v1alpha1.ForProvider (v1alpha1.Spec cr)) in
    if String.eqb hg "" then hostGroup e else hg in
  r ← remote (CallGetHostGroupNodes hostGroup)
             (sdk.GetHostGroupNodes (client e) hostGroup);
  match r with
  | inl err =>
      mret (managed.ExternalObservation_zero, Some (errors.Wrap err "cannot list VMs"))
  | inr nodes =>
      match found nodes externalName with
      | None => mret (managed.ExternalObservation_zero, None)
      | Some node =>
          setAtProvider (v1alpha1.set_Hostname (sdk.Hostname node)) ;;
          setAtProvider (v1alpha1.set_IP (sdk.IP node)) ;;
          setAtProvider (v1alpha1.set_CreatedAt (Time_String (sdk.CreatedAt node))) ;;
          setAtProvider (v1alpha1.set_State "running") ;;
          store (v1alpha1.SetConditions [xpv1.Available]) ;;
          mret ({| managed.ResourceExists := true;
                   managed.ResourceUpToDate := true;
                   managed.ResourceLateInitialized := false;
                   managed.ConnectionDetails := ∅;
                   managed.Diff := "" |}, None)
      end
  end.

Definition Observe (e : external) (mg : Managed) : Outcome managed.ExternalObservation :=
  match mg with
  | ManagedVM cr => run (observe e) cr
  | ManagedOther _ =>
      refused mg (managed.ExternalObservation_zero, Some (errors.New errNotVM))
  end.

Definition create (e : external) : M (result managed.ExternalCreation) :=
  store (v1alpha1.SetConditions [xpv1.Creating]) ;;
  cr ← load;
  let ForProvider := v1alpha1.ForProvider (v1alpha1.Spec cr) in
  let hostGroup :=
    let hg := v1alpha1.HostGroup ForProvider in
    if String.eqb hg "" then hostGroup e else hg in
  let req :=
    {| sdk.RamGB := v1alpha1.RAMGB ForProvider;
       sdk.CPUs := v1alpha1.CPUs ForProvider;
       sdk.Userdata := v1alpha1.Userdata ForProvider;
       sdk.SSHKeys := []; sdk.ImportUser := ""; sdk.Tags := [] |} in
  let req := if sdk.RamGB req =? 0 then sdk.set_RamGB 4 req else req in
  let req := if sdk.CPUs req =? 0 then sdk.set_CPUs 2 req else req in
  let req := if (0 <? length (v1alpha1.SSHKeys ForProvider))%nat
             then sdk.set_SSHKeys (v1alpha1.SSHKeys ForProvider) req else req in
  let req := if negb (String.eqb (v1alpha1.ImportUser ForProvider) "")
             then sdk.set_ImportUser (v1alpha1.ImportUser ForProvider) req else req in
  let req := if (0 <? length (v1alpha1.Tags ForProvider))%nat
             then sdk.set_Tags (v1alpha1.Tags ForProvider) req else req in
  r ← remote (CallCreateNode hostGroup req) (sdk.CreateNode (client e) hostGroup req);
  match r with
  | inl err =>
      mret (managed.ExternalCreation_zero, Some (errors.Wrap err "cannot create VM"))
  | inr resp =>
      store (fun cr => meta.SetExternalName cr (sdk.resp_Hostname resp)) ;;
      setAtProvider (v1alpha1.set_Hostname (sdk.resp_Hostname resp)) ;;
      setAtProvider (v1alpha1.set_IP (sdk.resp_IP resp)) ;;
      setAtProvider (v1alpha1.set_CreatedAt (Time_String (sdk.resp_CreatedAt resp))) ;;
      mret ({| managed.creation_ConnectionDetails :=
                 <["ip" := list_byte_of_string (sdk.resp_IP resp)]>
                   (<["hostname" := list_byte_of_string (sdk.resp_Hostname resp)]> ∅) |},
            None)
  end.

Definition Create (e : external) (mg : Managed) : Outcome managed.ExternalCreation :=
  match mg with
  | ManagedVM cr => run (create e) cr
  | ManagedOther _ =>
      refused mg (managed.ExternalCreation_zero, Some (errors.New errNotVM))
  end.

(** Slicer VMs cannot be updated in place, only recreated. *)
Definition Update (e : external) (mg : Managed) : Outcome managed.ExternalUpdate :=
  {| mg_after := mg; calls := []; returned := (managed.ExternalUpdate_zero, None) |}.

Definition delete (e : external) : M (result managed.ExternalDelete) :=
  store (v1alpha1.SetConditions [xpv1.Deleting]) ;;
  cr ← load;
  let externalName := meta.GetExternalName cr in
  if String.eqb externalName "" then
    mret (managed.ExternalDelete_zero, None)
  else
  let hostGroup :=
    let hg := v1alpha1.HostGroup (v1alpha1.ForProvider (v1alpha1.Spec cr)) in
    if String.eqb hg "" then hostGroup e else hg in
  r ← remote (CallDeleteVM hostGroup externalName)
             (sdk.DeleteVM (client e) hostGroup externalName);
  match r with
  | inl err =>
      mret (managed.ExternalDelete_zero, Some (errors.Wrap err "cannot delete VM"))
  | inr _ => mret (managed.ExternalDelete_zero, None)
  end.

Definition Delete (e : external) (mg : Managed) : Outcome managed.ExternalDelete :=
  match mg with
  | ManagedVM cr => run (delete e) cr
  | ManagedOther _ =>
      refused mg (managed.ExternalDelete_zero, Some (errors.New errNotVM))
  end.

Definition Disconnect (e : external) : option error := None.

(** ** Provider configuration ([apis/v1alpha1], crossplane-runtime) *)

Module apisv1alpha1.

(** Modelled from the spec: the secret selector of a credentials block. *)
Record SecretKeySelector : Type := {
  secret_Namespace : string;
  secret_Name : string;
  secret_Key : string
}.

Record CommonCredentialSelectors : Type := {
  SecretRef : option SecretKeySelector
}.

(** Modelled from the spec: a credentials block is a source discriminator
    and the selectors. *)
Record ProviderCredentials : Type := {
  Source : string;
  Selectors : CommonCredentialSelectors
}.

(** Modelled from the spec: [ProviderConfig] and [ClusterProviderConfig]
    both expose [url], [hostGroup] and [credentials]. *)
Record ProviderConfigSpec : Type := {
  Credentials : ProviderCredentials;
  URL : string;
  HostGroup : string
}.

Definition ProviderCredentials_zero : ProviderCredentials :=
  {| Source := ""; Selectors := {| SecretRef := None |} |}.

End apisv1alpha1.

Record NamespacedName : Type := {
  nn_Namespace : string;
  nn_Name : string
}.

(** The type of the object [kube.Get] is asked to fill. *)
Inductive ConfigObject : Type := ProviderConfig | ClusterProviderConfig.

(** The Kubernetes client, as far as [Connect] uses it. *)
Record KubeClient : Type := {
  Get : ConfigObject -> NamespacedName -> sdk.answer apisv1alpha1.ProviderConfigSpec
}.

Record ProviderConfigUsageTracker : Type := {
  Track : VM -> option error
}.

(** What [Connect] asks of its collaborators, oldest first. *)
Inductive ConnectCall : Type :=
| CallTrack
| CallGet (obj : ConfigObject) (key : NamespacedName)
| CallCredentialExtractor (source : string)
    (selectors : apisv1alpha1.CommonCredentialSelectors).

Record connector : Type := {
  kube : KubeClient;
  usage : ProviderConfigUsageTracker
}.

Record slicerConfig : Type := {
  cfg_URL : string;
  cfg_Token : string;
  cfg_HostGroup : string
}.

(** How a Go function ends: it returns, or it panics (here only on the
    dereference of a nil provider-config reference). *)
Inductive Completion (A : Type) : Type :=
| Returns (r : A)
| Panics.

Arguments Returns {A} r.
Arguments Panics {A}.

Record Connection : Type := {
  connect_calls : list ConnectCall;
  connect_end : Completion (result (option external))
}.

Section Connector.

(** [resource.CommonCredentialExtractor] and [sdk.NewSlicerClient] (with
    its nil HTTP client) belong to imported packages. *)
Variable CommonCredentialExtractor :
  string -> KubeClient -> apisv1alpha1.CommonCredentialSelectors -> sdk.answer (list byte).
Variable NewSlicerClient : string -> string -> string -> sdk.SlicerClient.

(** The part of [Connect] after the switch on the kind: defaults,
    credentials, client. *)
Definition connectWith (c : connector) (log : list ConnectCall)
    (cd : apisv1alpha1.ProviderCredentials) (cfg : slicerConfig) : Connection :=
  let cfg := if String.eqb (cfg_URL cfg) ""
             then {| cfg_URL := "http://127.0.0.1:8080"; cfg_Token := cfg_Token cfg;
                     cfg_HostGroup := cfg_HostGroup cfg |}
             else cfg in
  let cfg := if String.eqb (cfg_HostGroup cfg) ""
             then {| cfg_URL := cfg_URL cfg; cfg_Token := cfg_Token cfg;
                     cfg_HostGroup := "api" |}
             else cfg in
  let log := (log ++ [CallCredentialExtractor (apisv1alpha1.Source cd)
                        (apisv1alpha1.Selectors cd)])%list in
  match CommonCredentialExtractor (apisv1alpha1.Source cd) (kube c)
          (apisv1alpha1.Selectors cd) with
  | inl err =>
      {| connect_calls := log;
         connect_end := Returns (None, Some (errors.Wrap err errGetCreds)) |}
  | inr data =>
      let cfg := {| cfg_URL := cfg_URL cfg; cfg_Token := string_of_list_byte data;
                    cfg_HostGroup := cfg_HostGroup cfg |} in
      let slicerClient :=
        NewSlicerClient (cfg_URL cfg) (cfg_Token cfg) "provider-slicervm/1.0" in
      {| connect_calls := log;
         connect_end := Returns (Some {| client := slicerClient;
                                         hostGroup := cfg_HostGroup cfg |}, None) |}
  end.

Definition Connect (c : connector) (mg : Managed) : Connection :=
  match mg with
  | ManagedOther _ =>
      {| connect_calls := [];
         connect_end := Returns (None, Some (errors.New errNotVM)) |}
  | ManagedVM cr =>
      match Track (usage c) cr with
      | Some err =>
          {| connect_calls := [CallTrack];
             connect_end := Returns (None, Some (errors.Wrap err errTrackPCUsage)) |}
      | None =>
          let cfg := {| cfg_URL := ""; cfg_Token := ""; cfg_HostGroup := "" |} in
          match v1alpha1.ProviderConfigReference_ (v1alpha1.Spec cr) with
          | None => {| connect_calls := [CallTrack]; connect_end := Panics |}
          | Some ref =>
              if String.eqb (v1alpha1.ref_Kind ref) "ProviderConfig" then
                let key := {| nn_Namespace := v1alpha1.Namespace (v1alpha1.Meta cr);
                              nn_Name := v1alpha1.ref_Name ref |} in
                match Get (kube c) ProviderConfig key with
                | inl err =>
                    {| connect_calls := [CallTrack; CallGet ProviderConfig key];
                       connect_end := Returns (None, Some (errors.Wrap err errGetPC)) |}
                | inr pc =>
                    connectWith c [CallTrack; CallGet ProviderConfig key]
                      (apisv1alpha1.Credentials pc)
                      {| cfg_URL := apisv1alpha1.URL pc; cfg_Token := cfg_Token cfg;
                         cfg_HostGroup := apisv1alpha1.HostGroup pc |}
                end
              else if String.eqb (v1alpha1.ref_Kind ref) "ClusterProviderConfig" then
                let key := {| nn_Namespace := ""; nn_Name := v1alpha1.ref_Name ref |} in
                match Get (kube c) ClusterProviderConfig key with
                | inl err =>
                    {| connect_calls := [CallTrack; CallGet ClusterProviderConfig key];
                       connect_end := Returns (None, Some (errors.Wrap err errGetCPC)) |}
                | inr cpc =>
                    connectWith c [CallTrack; CallGet ClusterProviderConfig key]
                      (apisv1alpha1.Credentials cpc)
                      {| cfg_URL := apisv1alpha1.URL cpc; cfg_Token := cfg_Token cfg;
                         cfg_HostGroup := apisv1alpha1.HostGroup cpc |}
                end
              else
                {| connect_calls := [CallTrack];
                   connect_end :=
                     Returns (None,
                              Some (errors.Errorf_s "unsupported provider config kind: "
                                      (v1alpha1.ref_Kind ref))) |}
          end
      end
  end.

End Connector.

(** ** Sequences of operations

    The reconciler connects, then calls one operation on the resource; the
    next reconciliation works on the resource the previous one left. *)

Inductive Operation : Type := OpObserve | OpCreate | OpUpdate | OpDelete.

Definition step (mg : Managed) (s : Operation * external) : Managed :=
  match s with
  | (OpObserve, e) => mg_after (Observe e mg)
  | (OpCreate, e) => mg_after (Create e mg)
  | (OpUpdate, e) => mg_after (Update e mg)
  | (OpDelete, e) => mg_after (Delete e mg)
  end.

Definition steps (ops : list (Operation * external)) (mg : Managed) : Managed :=
  fold_left step ops mg.

Definition isCreate (s : Operation * external) : bool :=
  match fst s with
  | OpCreate => true
  | _ => false
  end.

(** The external name of the resource behind the interface, the observed
    hostname, the conditions. *)
Definition externalNameOf (mg : Managed) : option string :=
  match mg with
  | ManagedVM cr => Some (meta.GetExternalName cr)
  | ManagedOther _ => None
  end.

Definition hostnameOf (mg : Managed) : option string :=
  match mg with
  | ManagedVM cr => Some (v1alpha1.Hostname (v1alpha1.AtProvider (v1alpha1.Status cr)))
  | ManagedOther _ => None
  end.

Definition conditionsOf (mg : Managed) : list xpv1.Condition :=
  match mg with
  | ManagedVM cr => v1alpha1.Conditions (v1alpha1.Status cr)
  | ManagedOther _ => []
  end.

(** ** Sample resources, clients and clusters *)

Module Samples.

Definition t0 : Time :=
  mkTime 1700000000000000000 "2023-11-14 22:13:20 +0000 UTC".

Definition t1 : Time :=
  mkTime 1700000360000000000 "2023-11-14 22:19:20 +0000 UTC".

Definition node (h ip : string) (t : Time) : sdk.SlicerNode :=
  {| sdk.Hostname := h; sdk.IP := ip; sdk.CreatedAt := t |}.

Definition nodes : list sdk.SlicerNode :=
  [node "vm-2" "10.0.0.3" t1; node "vm-1" "10.0.0.2" t0; node "vm-1" "10.0.0.9" t1].

(** A remote that lists [nodes], creates ["vm-2"] and deletes. *)
Definition up : sdk.SlicerClient :=
  {| sdk.GetHostGroupNodes := fun _ => inr nodes;
     sdk.CreateNode := fun _ _ =>
       inr {| sdk.resp_Hostname := "vm-2"; sdk.resp_IP := "10.0.0.3";
              sdk.resp_CreatedAt := t1 |};
     sdk.DeleteVM := fun _ _ => inr tt |}.

(** A remote that refuses every call. *)
Definition down : sdk.SlicerClient :=
  {| sdk.GetHostGroupNodes := fun _ => inl "connection refused";
     sdk.CreateNode := fun _ _ => inl "connection refused";
     sdk.DeleteVM := fun _ _ => inl "connection refused" |}.

(** A remote that has lost its nodes and creates ["vm-2"]. *)
Definition lost : sdk.SlicerClient :=
  {| sdk.GetHostGroupNodes := fun _ => inr [];
     sdk.CreateNode := sdk.CreateNode up;
     sdk.DeleteVM := fun _ _ => inr tt |}.

Definition e_up : external := {| client := up; hostGroup := "api" |}.
Definition e_lost : external := {| client := lost; hostGroup := "api" |}.
Definition e_down : external := {| client := down; hostGroup := "api" |}.

Definition params (hg : string) (cpus ram : Z) : v1alpha1.VMParameters :=
  {| v1alpha1.HostGroup := hg; v1alpha1.CPUs := cpus; v1alpha1.RAMGB := ram;
     v1alpha1.Userdata := ""; v1alpha1.SSHKeys := []; v1alpha1.ImportUser := "";
     v1alpha1.Tags := [] |}.

Definition observation0 : v1alpha1.VMObservation :=
  {| v1alpha1.Hostname := ""; v1alpha1.IP := ""; v1alpha1.State := "";
     v1alpha1.CreatedAt := "" |}.

Definition vm (kind : string) (deleted : option Time) (annotations : gmap string string)
    (p : v1alpha1.VMParameters) : VM :=
  {| v1alpha1.Meta := {| v1alpha1.Name := "box"; v1alpha1.Namespace := "default";
                         v1alpha1.DeletionTimestamp := deleted;
                         v1alpha1.Annotations := annotations |};
     v1alpha1.Spec := {| v1alpha1.ProviderConfigReference_ :=
                           Some {| v1alpha1.ref_Kind := kind;
                                   v1alpha1.ref_Name := "default" |};
                         v1alpha1.ForProvider := p |};
     v1alpha1.Status := {| v1alpha1.Conditions := [];
                           v1alpha1.AtProvider := observation0 |} |}.

Definition named (name : string) : gmap string string :=
  {[ meta.AnnotationKeyExternalName := name ]}.

(** Not yet created; bound to ["vm-1"]; bound and marked for deletion. *)
Definition fresh : VM := vm "ProviderConfig" None ∅ (params "" 0 0).
Definition sized : VM := vm "ProviderConfig" None ∅ (params "custom" 3 8).
Definition bound : VM := vm "ProviderConfig" None (named "vm-1") (params "" 0 0).
Definition leaving : VM := vm "ProviderConfig" (Some t1) (named "vm-1") (params "" 0 0).
Definition odd : VM := vm "Secret" None ∅ (params "" 0 0).
Definition clustered : VM := vm "ClusterProviderConfig" None ∅ (params "" 0 0).

Definition credentials : apisv1alpha1.ProviderCredentials :=
  {| apisv1alpha1.Source := "Secret";
     apisv1alpha1.Selectors :=
       {| apisv1alpha1.SecretRef :=
            Some {| apisv1alpha1.secret_Namespace := "crossplane-system";
                    apisv1alpha1.secret_Name := "slicer"; apisv1alpha1.secret_Key := "token" |} |} |}.

(** A cluster whose configuration objects leave URL and host group empty. *)
Definition cluster : KubeClient :=
  {| Get := fun _ _ =>
       inr {| apisv1alpha1.Credentials := credentials; apisv1alpha1.URL := "";
              apisv1alpha1.HostGroup := "" |} |}.

Definition tracking : connector :=
  {| kube := cluster; usage := {| Track := fun _ => None |} |}.

Definition untracked : connector :=
  {| kube := cluster; usage := {| Track := fun _ => Some "conflict" |} |}.

Definition extractor (source : string) (k : KubeClient)
    (s : apisv1alpha1.CommonCredentialSelectors) : sdk.answer (list byte) :=
  inr (list_byte_of_string "s3cr3t").

Definition newClient (url token userAgent : string) : sdk.SlicerClient := up.

End Samples.

(** ** What the adapter is not meant to write

    The desired state and the identity of the resource: the spec, the name,
    the namespace, the deletion timestamp and every annotation but the
    external name. *)

Definition keptOf (mg : Managed)
  : option (v1alpha1.VMSpec * string * string * option Time * gmap string string) :=
  match mg with
  | ManagedVM cr =>
      Some (v1alpha1.Spec cr,
            v1alpha1.Name (v1alpha1.Meta cr),
            v1alpha1.Namespace (v1alpha1.Meta cr),
            v1alpha1.DeletionTimestamp (v1alpha1.Meta cr),
            base.delete meta.AnnotationKeyExternalName
              (v1alpha1.Annotations (v1alpha1.Meta cr)))
  | ManagedOther _ => None
  end.


(** The host group a call of [e] on [cr] goes to. *)
Definition hostGroupFor (e : external) (cr : VM) : string :=
  if String.eqb (v1alpha1.HostGroup (v1alpha1.ForProvider (v1alpha1.Spec cr))) ""
  then hostGroup e
  else v1alpha1.HostGroup (v1alpha1.ForProvider (v1alpha1.Spec cr)).

(** The request Create sends for [cr], in closed form: the defaults for a
    zero RAMGB and a zero CPUs, every other field as the resource has it. *)
Definition requestFor (cr : VM) : sdk.SlicerCreateNodeRequest :=
  let p := v1alpha1.ForProvider (v1alpha1.Spec cr) in
  {| sdk.RamGB := if v1alpha1.RAMGB p =? 0 then 4 else v1alpha1.RAMGB p;
     sdk.CPUs := if v1alpha1.CPUs p =? 0 then 2 else v1alpha1.CPUs p;
     sdk.Userdata := v1alpha1.Userdata p;
     sdk.SSHKeys := v1alpha1.SSHKeys p;
     sdk.ImportUser := v1alpha1.ImportUser p;
     sdk.Tags := v1alpha1.Tags p |}.

(** ** Further sample resources, clients and clusters *)

Module Cases.

(** A remote whose creation response carries no hostname. *)
Definition nameless : sdk.SlicerClient :=
  {| sdk.GetHostGroupNodes := fun _ => inr Samples.nodes;
     sdk.CreateNode := fun _ _ =>
       inr {| sdk.resp_Hostname := ""; sdk.resp_IP := "10.0.0.4";
              sdk.resp_CreatedAt := Samples.t1 |};
     sdk.DeleteVM := fun _ _ => inr tt |}.

Definition e_nameless : external := {| client := nameless; hostGroup := "api" |}.

(** A cluster without configuration objects. *)
Definition bare : KubeClient := {| Get := fun _ _ => inl "not found" |}.

Definition unconfigured : connector :=
  {| kube := bare; usage := {| Track := fun _ => None |} |}.

Definition denied (source : string) (k : KubeClient)
    (s : apisv1alpha1.CommonCredentialSelectors) : sdk.answer (list byte) :=
  inl "secret not found".


(** A VM bound to ["vm-1"] that carries another annotation, a Synced
    condition and a stale observation. *)
Definition labelled : VM :=
  {| v1alpha1.Meta :=
       {| v1alpha1.Name := "box"; v1alpha1.Namespace := "default";
          v1alpha1.DeletionTimestamp := None;
          v1alpha1.Annotations :=
            <["team" := "infra"]> (Samples.named "vm-1") |};
     v1alpha1.Spec :=
       {| v1alpha1.ProviderConfigReference_ :=
            Some {| v1alpha1.ref_Kind := "ProviderConfig"; v1alpha1.ref_Name := "default" |};
          v1alpha1.ForProvider :=
            {| v1alpha1.HostGroup := "custom"; v1alpha1.CPUs := 0; v1alpha1.RAMGB := 16;
               v1alpha1.Userdata := "#cloud-config";
               v1alpha1.SSHKeys := ["ssh-ed25519 AAAA"];
               v1alpha1.ImportUser := "octocat"; v1alpha1.Tags := ["ci"] |} |};
     v1alpha1.Status :=
       {| v1alpha1.Conditions := [];
          v1alpha1.AtProvider :=
            {| v1alpha1.Hostname := "vm-1"; v1alpha1.IP := "10.0.0.2";
               v1alpha1.State := "running"; v1alpha1.CreatedAt := "then" |} |} |}.

End Cases.

(** * Properties *)

(** ** The scan *)

Lemma found_Some nodes externalName node :
  found nodes externalName = Some node <->
  exists pre post,
    nodes = (pre ++ node :: post)%list /\
    sdk.Hostname node = externalName /\
    Forall (fun n => sdk.Hostname n <> externalName) pre.
Proof.
  induction nodes as [|n rest IH]; simpl.
  - split; [discriminate|].
    intros (pre & post & Hnil & _). destruct pre; discriminate.
  - destruct (String.eqb_spec (sdk.Hostname n) externalName) as [Heq|Hne].
    + split.
      * intros [= ->]. exists [], rest. auto.
      * intros (pre & post & Hnodes & Hnode & Hpre).
        destruct pre as [|p pre]; simpl in Hnodes.
        -- congruence.
        -- injection Hnodes as -> _. inversion Hpre; contradiction.
    + rewrite IH. split.
      * intros (pre & post & -> & Hnode & Hpre).
        exists (n :: pre), post. auto.
      * intros (pre & post & Hnodes & Hnode & Hpre).
        destruct pre as [|p pre]; simpl in Hnodes.
        -- injection Hnodes as -> _. contradiction.
        -- injection Hnodes as -> ->. inversion Hpre; subst. eauto.
Qed.

Lemma found_None nodes externalName :
  found nodes externalName = None <->
  forall node, In node nodes -> sdk.Hostname node <> externalName.
Proof.
  induction nodes as [|n rest IH]; simpl.
  - split; [intros _ ? []|reflexivity].
  - destruct (String.eqb_spec (sdk.Hostname n) externalName) as [Heq|Hne].
    + split; [discriminate|]. intros H. exfalso. exact (H n (or_introl eq_refl) Heq).
    + rewrite IH. split.
      * intros H node [<-|Hin]; auto.
      * intros H node Hin. apply H. auto.
Qed.

Lemma found_In nodes externalName node :
  found nodes externalName = Some node ->
  In node nodes /\ sdk.Hostname node = externalName.
Proof.
  intros (pre & post & -> & Hnode & _)%found_Some. split; [|exact Hnode].
  apply in_or_app. right. left. reflexivity.
Qed.

(** ** Conditions *)

Lemma ConditionType_eqb_eq a b : xpv1.ConditionType_eqb a b = true <-> a = b.
Proof. destruct a, b; simpl; split; congruence. Qed.

Lemma GetCondition_SetCondition s cond :
  xpv1.GetCondition (xpv1.SetCondition s cond) (xpv1.Type_ cond) = cond.
Proof.
  unfold xpv1.GetCondition, xpv1.SetCondition.
  destruct (existsb _ s) eqn:Hex.
  - induction s as [|c s IH]; simpl in *; [discriminate|].
    destruct (xpv1.ConditionType_eqb (xpv1.Type_ c) (xpv1.Type_ cond)) eqn:Hc; simpl.
    + assert (Hrefl : xpv1.ConditionType_eqb (xpv1.Type_ cond) (xpv1.Type_ cond) = true)
        by (apply ConditionType_eqb_eq; reflexivity).
      rewrite Hrefl. reflexivity.
    + rewrite Hc. apply IH. exact Hex.
  - induction s as [|c s IH]; simpl in *.
    + assert (Hrefl : xpv1.ConditionType_eqb (xpv1.Type_ cond) (xpv1.Type_ cond) = true)
        by (apply ConditionType_eqb_eq; reflexivity).
      rewrite Hrefl. reflexivity.
    + apply orb_false_iff in Hex as [Hc Hex]. rewrite Hc. apply IH. exact Hex.
Qed.

(** ** The external name *)

Lemma GetExternalName_SetExternalName cr name :
  meta.GetExternalName (meta.SetExternalName cr name) = name.
Proof.
  unfold meta.GetExternalName, meta.SetExternalName. simpl.
  rewrite lookup_insert_eq. reflexivity.
Qed.

(** Unfolding of the adapter's effects. *)
Ltac adapter :=
  unfold Observe, Create, Delete, Update, refused, run, observe, create, delete,
    setAtProvider, store, load, remote, mbind, M_bind, mret, M_ret;
  cbn [w_cr w_calls mg_after calls returned fst snd app].

(** ** Observe *)

(** C1. For a VM that is not marked for deletion and has a non-empty
    external name, and for every node list the listing call returns,
    Observe reports existence exactly when some node carries the external
    name as hostname; the first such node in list order is the one whose
    hostname, IP and rendered creation time are copied into the
    observation, the state becomes "running", the Ready condition becomes
    Available, and the result is ResourceExists and ResourceUpToDate; with
    no such node the result is ResourceExists=false. *)
Theorem Observe_first_match (e : external) (cr : VM) (nodes : list sdk.SlicerNode) :
  meta.WasDeleted (v1alpha1.Meta cr) = false ->
  meta.GetExternalName cr <> "" ->
  sdk.GetHostGroupNodes (client e)
    (if String.eqb (v1alpha1.HostGroup (v1alpha1.ForProvider (v1alpha1.Spec cr))) ""
     then hostGroup e
     else v1alpha1.HostGroup (v1alpha1.ForProvider (v1alpha1.Spec cr))) = inr nodes ->
  let o := Observe e (ManagedVM cr) in
  (managed.ResourceExists (fst (returned o)) = true <->
   exists node, In node nodes /\ sdk.Hostname node = meta.GetExternalName cr)
  /\ (forall pre node post,
        nodes = (pre ++ node :: post)%list ->
        sdk.Hostname node = meta.GetExternalName cr ->
        Forall (fun n => sdk.Hostname n <> meta.GetExternalName cr) pre ->
        exists cr',
          mg_after o = ManagedVM cr' /\
          v1alpha1.AtProvider (v1alpha1.Status cr') =
            {| v1alpha1.Hostname := sdk.Hostname node;
               v1alpha1.IP := sdk.IP node;
               v1alpha1.State := "running";
               v1alpha1.CreatedAt := Time_String (sdk.CreatedAt node) |} /\
          xpv1.GetCondition (v1alpha1.Conditions (v1alpha1.Status cr')) xpv1.TypeReady
            = xpv1.Available /\
          returned o =
            ({| managed.ResourceExists := true;
                managed.ResourceUpToDate := true;
                managed.ResourceLateInitialized := false;
                managed.ConnectionDetails := ∅;
                managed.Diff := "" |}, None))
  /\ ((forall node, In node nodes -> sdk.Hostname node <> meta.GetExternalName cr) ->
      managed.ResourceExists (fst (returned o)) = false /\
      snd (returned o) = None /\
      mg_after o = ManagedVM cr).
Proof.
  intros Hlive Hname Hlist o. subst o. adapter.
  rewrite Hlive.
  destruct (String.eqb_spec (meta.GetExternalName cr) "") as [Hempty|_];
    [contradiction|].
  cbn [w_cr w_calls]. rewrite Hlist.
  destruct (found nodes (meta.GetExternalName cr)) as [node|] eqn:Hfound.
  - cbn. split; [|split].
    + split; [intros _|reflexivity].
      exists node. apply found_In. exact Hfound.
    + intros pre node' post Hnodes Hnode' Hpre.
      assert (Hsame : found nodes (meta.GetExternalName cr) = Some node')
        by (apply found_Some; eauto).
      rewrite Hfound in Hsame. injection Hsame as ->.
      eexists. split; [reflexivity|]. cbn.
      split; [reflexivity|]. split; [|reflexivity].
      apply (GetCondition_SetCondition _ xpv1.Available).
    + intros Hnone. apply found_In in Hfound as [Hin Heq].
      exfalso. exact (Hnone node Hin Heq).
  - cbn. split; [|split].
    + split; [discriminate|].
      intros (node & Hin & Heq).
      exfalso. exact (proj1 (found_None _ _) Hfound node Hin Heq).
    + intros pre node post Hnodes Hnode Hpre.
      assert (Hsome : found nodes (meta.GetExternalName cr) = Some node)
        by (apply found_Some; eauto).
      congruence.
    + intros _. destruct cr as [m sp st]. auto.
Qed.

(** C4. For a VM marked for deletion, whatever its external name, and for a
    VM without an external name, Observe issues no remote call, leaves the
    resource as it is and returns ResourceExists=false with no error,
    whatever the remote would list. *)
Theorem Observe_deleted_or_unnamed (e : external) (cr : VM) :
  meta.WasDeleted (v1alpha1.Meta cr) = true \/ meta.GetExternalName cr = "" ->
  Observe e (ManagedVM cr) =
    {| mg_after := ManagedVM cr;
       calls := [];
       returned := ({| managed.ResourceExists := false;
                       managed.ResourceUpToDate := false;
                       managed.ResourceLateInitialized := false;
                       managed.ConnectionDetails := ∅;
                       managed.Diff := "" |}, None) |}.
Proof.
  intros Hskip. adapter.
  destruct (meta.WasDeleted (v1alpha1.Meta cr)) eqn:Hdeleted; [reflexivity|].
  destruct Hskip as [Hdel|Hname]; [discriminate|].
  rewrite Hname. reflexivity.
Qed.

(** C10. Observe returns an empty connection-details map on every path, for
    every client and every managed resource, also when a node is found and
    its IP is copied into the observation; Update returns none either, and
    a successful Create returns the IP under the key "ip". *)
Theorem Observe_publishes_nothing (e : external) (mg : Managed) :
  managed.ConnectionDetails (fst (returned (Observe e mg))) = ∅
  /\ (forall cr node,
        mg = ManagedVM cr ->
        meta.WasDeleted (v1alpha1.Meta cr) = false ->
        meta.GetExternalName cr <> "" ->
        (exists nodes,
           sdk.GetHostGroupNodes (client e)
             (if String.eqb (v1alpha1.HostGroup (v1alpha1.ForProvider (v1alpha1.Spec cr))) ""
              then hostGroup e
              else v1alpha1.HostGroup (v1alpha1.ForProvider (v1alpha1.Spec cr)))
             = inr nodes /\
           found nodes (meta.GetExternalName cr) = Some node) ->
        exists cr',
          mg_after (Observe e mg) = ManagedVM cr' /\
          v1alpha1.IP (v1alpha1.AtProvider (v1alpha1.Status cr')) = sdk.IP node /\
          managed.ConnectionDetails (fst (returned (Observe e mg))) = ∅)
  /\ managed.update_ConnectionDetails (fst (returned (Update e mg))) = ∅
  /\ (snd (returned (Create e mg)) = None ->
      exists ip,
        managed.creation_ConnectionDetails (fst (returned (Create e mg))) !! "ip"
          = Some (list_byte_of_string ip) /\
        exists cr',
          mg_after (Create e mg) = ManagedVM cr' /\
          v1alpha1.IP (v1alpha1.AtProvider (v1alpha1.Status cr')) = ip).
Proof.
  split; [|split; [|split]].
  - destruct mg as [cr|o]; [|reflexivity]. adapter.
    destruct (meta.WasDeleted _); [reflexivity|].
    destruct (String.eqb _ ""); [reflexivity|].
    cbn [w_cr w_calls].
    destruct (sdk.GetHostGroupNodes _ _) as [err|nodes]; [reflexivity|].
    destruct (found nodes _); reflexivity.
  - intros cr node -> Hlive Hname (nodes & Hlist & Hfound). adapter.
    rewrite Hlive.
    destruct (String.eqb_spec (meta.GetExternalName cr) "") as [|_]; [contradiction|].
    cbn [w_cr w_calls]. rewrite Hlist, Hfound. cbn.
    eexists. split; [reflexivity|]. split; reflexivity.
  - reflexivity.
  - destruct mg as [cr|o]; [|discriminate]. adapter.
    match goal with |- context [sdk.CreateNode ?c ?h ?r] =>
      destruct (sdk.CreateNode c h r) as [err|resp] end; [discriminate|].
    intros _. cbn. exists (sdk.resp_IP resp). split.
    + apply lookup_insert_eq.
    + eexists. split; reflexivity.
Qed.

(** ** Update *)

(** C7. Update returns no error, issues no remote call and leaves the
    resource untouched, for every managed resource, a VM or not. *)
Theorem Update_is_a_noop (e : external) (mg : Managed) :
  snd (returned (Update e mg)) = None
  /\ calls (Update e mg) = []
  /\ mg_after (Update e mg) = mg
  /\ (forall o, snd (returned (Update e (ManagedOther o))) = None
                /\ calls (Update e (ManagedOther o)) = []).
Proof. repeat split. Qed.

(** ** Create *)

(** Create issues exactly one remote call, the creation request. *)
Lemma Create_calls (e : external) (cr : VM) :
  exists req,
    calls (Create e (ManagedVM cr)) =
      [CallCreateNode
         (if String.eqb (v1alpha1.HostGroup (v1alpha1.ForProvider (v1alpha1.Spec cr))) ""
          then hostGroup e
          else v1alpha1.HostGroup (v1alpha1.ForProvider (v1alpha1.Spec cr)))
         req]
    /\ sdk.RamGB req =
         (if v1alpha1.RAMGB (v1alpha1.ForProvider (v1alpha1.Spec cr)) =? 0 then 4
          else v1alpha1.RAMGB (v1alpha1.ForProvider (v1alpha1.Spec cr)))
    /\ sdk.CPUs req =
         (if v1alpha1.CPUs (v1alpha1.ForProvider (v1alpha1.Spec cr)) =? 0 then 2
          else v1alpha1.CPUs (v1alpha1.ForProvider (v1alpha1.Spec cr))).
Proof.
  adapter.
  match goal with |- context [sdk.CreateNode ?c ?h ?r] =>
    exists r; destruct (sdk.CreateNode c h r) as [err|resp] end;
    (split; [reflexivity|]);
    destruct cr as [m [ref [hg cpus ram ud keys user tags]] st]; cbn;
    destruct (ram =? 0); cbn; destruct (cpus =? 0); cbn;
    destruct keys; cbn; destruct (String.eqb user ""); cbn;
    destruct tags; cbn; split; reflexivity.
Qed.


(** C3. The creation request carries RamGB 4 when the resource's RAMGB is
    zero and the resource's RAMGB otherwise, and CPUs 2 when the resource's
    CPUs is zero and the resource's CPUs otherwise; so CPUs=0, RAMGB=0
    give a request with CPUs=2, RamGB=4 and CPUs=3, RAMGB=8 give a request
    with exactly those values. *)
Theorem Create_request_defaults (e : external) (cr : VM) :
  exists hg req,
    calls (Create e (ManagedVM cr)) = [CallCreateNode hg req]
    /\ sdk.RamGB req =
         (if v1alpha1.RAMGB (v1alpha1.ForProvider (v1alpha1.Spec cr)) =? 0 then 4
          else v1alpha1.RAMGB (v1alpha1.ForProvider (v1alpha1.Spec cr)))
    /\ sdk.CPUs req =
         (if v1alpha1.CPUs (v1alpha1.ForProvider (v1alpha1.Spec cr)) =? 0 then 2
          else v1alpha1.CPUs (v1alpha1.ForProvider (v1alpha1.Spec cr)))
    /\ (v1alpha1.CPUs (v1alpha1.ForProvider (v1alpha1.Spec cr)) = 0 ->
        v1alpha1.RAMGB (v1alpha1.ForProvider (v1alpha1.Spec cr)) = 0 ->
        sdk.CPUs req = 2 /\ sdk.RamGB req = 4)
    /\ (v1alpha1.CPUs (v1alpha1.ForProvider (v1alpha1.Spec cr)) = 3 ->
        v1alpha1.RAMGB (v1alpha1.ForProvider (v1alpha1.Spec cr)) = 8 ->
        sdk.CPUs req = 3 /\ sdk.RamGB req = 8).
Proof.
  destruct (Create_calls e cr) as (req & Hcalls & Hram & Hcpus).
  eexists _, req. split; [exact Hcalls|].
  split; [exact Hram|]. split; [exact Hcpus|].
  split; intros Hc Hr; rewrite Hc in Hcpus; rewrite Hr in Hram; auto.
Qed.

(** ** Delete *)

(** C5, as the code has it. Delete sets the Deleting condition on every VM,
    before it looks at the external name. Without an external name it
    issues no remote call and returns no error; with one it issues exactly
    one deletion request, for the resolved host group and the external
    name, and returns the request's failure wrapped as "cannot delete VM"
    and no error when the request succeeds. *)
Theorem Delete_marks_then_deletes (e : external) (cr : VM) :
  exists cr',
    mg_after (Delete e (ManagedVM cr)) = ManagedVM cr'
    /\ xpv1.GetCondition (v1alpha1.Conditions (v1alpha1.Status cr')) xpv1.TypeReady
         = xpv1.Deleting
    /\ (meta.GetExternalName cr = "" ->
        calls (Delete e (ManagedVM cr)) = []
        /\ snd (returned (Delete e (ManagedVM cr))) = None)
    /\ (meta.GetExternalName cr <> "" ->
        let hg :=
          if String.eqb (v1alpha1.HostGroup (v1alpha1.ForProvider (v1alpha1.Spec cr))) ""
          then hostGroup e
          else v1alpha1.HostGroup (v1alpha1.ForProvider (v1alpha1.Spec cr)) in
        calls (Delete e (ManagedVM cr)) = [CallDeleteVM hg (meta.GetExternalName cr)]
        /\ (forall err,
              sdk.DeleteVM (client e) hg (meta.GetExternalName cr) = inl err ->
              snd (returned (Delete e (ManagedVM cr)))
                = Some (errors.Wrap err "cannot delete VM"))
        /\ (forall u,
              sdk.DeleteVM (client e) hg (meta.GetExternalName cr) = inr u ->
              snd (returned (Delete e (ManagedVM cr))) = None)).
Proof.
  adapter.
  change (meta.GetExternalName (v1alpha1.SetConditions [xpv1.Deleting] cr))
    with (meta.GetExternalName cr).
  destruct (String.eqb_spec (meta.GetExternalName cr) "") as [Hempty|Hname].
  - eexists. split; [reflexivity|]. split.
    + apply (GetCondition_SetCondition _ xpv1.Deleting).
    + split; [intros _; split; reflexivity|]. intros Hname. contradiction.
  - cbn [w_cr w_calls].
    match goal with |- context [sdk.DeleteVM ?c ?h ?n] =>
      destruct (sdk.DeleteVM c h n) as [err|u] eqn:Hanswer end;
      (eexists; split; [reflexivity|]; split;
       [apply (GetCondition_SetCondition _ xpv1.Deleting)|]; split;
       [intros Hempty; contradiction|]; intros _; cbn in Hanswer |- *;
       split; [reflexivity|]; split; intros x Hx;
       pose proof (eq_trans (eq_sym Hx) Hanswer) as Hsame;
       first [discriminate | injection Hsame as ->; reflexivity | reflexivity]).
Qed.

(** With an external name, Delete issues exactly one remote call. *)
Lemma Delete_calls (e : external) (cr : VM) :
  meta.GetExternalName cr <> "" ->
  calls (Delete e (ManagedVM cr)) =
    [CallDeleteVM
       (if String.eqb (v1alpha1.HostGroup (v1alpha1.ForProvider (v1alpha1.Spec cr))) ""
        then hostGroup e
        else v1alpha1.HostGroup (v1alpha1.ForProvider (v1alpha1.Spec cr)))
       (meta.GetExternalName cr)].
Proof.
  intros Hname. adapter.
  change (meta.GetExternalName (v1alpha1.SetConditions [xpv1.Deleting] cr))
    with (meta.GetExternalName cr).
  destruct (String.eqb_spec (meta.GetExternalName cr) "") as [|_]; [contradiction|].
  cbn [w_cr w_calls].
  destruct (sdk.DeleteVM _ _ _); reflexivity.
Qed.

(** ** Connect *)

Section ConnectorProperties.

Variable CommonCredentialExtractor :
  string -> KubeClient -> apisv1alpha1.CommonCredentialSelectors -> sdk.answer (list byte).
Variable NewSlicerClient : string -> string -> string -> sdk.SlicerClient.

(** The name [kube.Get] is asked for: namespaced for a ProviderConfig,
    cluster-wide for a ClusterProviderConfig. *)
Lemma Connect_resolved (c : connector) (cr : VM) (ref : v1alpha1.ProviderConfigReference)
    (obj : ConfigObject) (pc : apisv1alpha1.ProviderConfigSpec) (data : list byte) :
  Track (usage c) cr = None ->
  v1alpha1.ProviderConfigReference_ (v1alpha1.Spec cr) = Some ref ->
  v1alpha1.ref_Kind ref =
    match obj with
    | ProviderConfig => "ProviderConfig"
    | ClusterProviderConfig => "ClusterProviderConfig"
    end ->
  Get (kube c) obj
    {| nn_Namespace := match obj with
                       | ProviderConfig => v1alpha1.Namespace (v1alpha1.Meta cr)
                       | ClusterProviderConfig => ""
                       end;
       nn_Name := v1alpha1.ref_Name ref |} = inr pc ->
  CommonCredentialExtractor (apisv1alpha1.Source (apisv1alpha1.Credentials pc)) (kube c)
    (apisv1alpha1.Selectors (apisv1alpha1.Credentials pc)) = inr data ->
  connect_end (Connect CommonCredentialExtractor NewSlicerClient c (ManagedVM cr)) =
    Returns
      (Some {| client :=
                 NewSlicerClient
                   (if String.eqb (apisv1alpha1.URL pc) ""
                    then "http://127.0.0.1:8080" else apisv1alpha1.URL pc)
                   (string_of_list_byte data) "provider-slicervm/1.0";
               hostGroup :=
                 if String.eqb (apisv1alpha1.HostGroup pc) ""
                 then "api" else apisv1alpha1.HostGroup pc |},
       None).
Proof.
  intros Htrack Href Hkind Hget Hcreds.
  unfold Connect. rewrite Htrack, Href, Hkind.
  destruct obj; cbn [String.eqb Ascii.eqb Bool.eqb]; rewrite Hget;
    unfold connectWith; cbn [cfg_URL cfg_HostGroup cfg_Token];
    destruct (String.eqb (apisv1alpha1.URL pc) "");
    cbn [cfg_URL cfg_HostGroup cfg_Token];
    destruct (String.eqb (apisv1alpha1.HostGroup pc) "");
    cbn [cfg_URL cfg_HostGroup cfg_Token];
    rewrite Hcreds; reflexivity.
Qed.

(** C6. The remote call of Observe, of Create and of Delete goes to the
    resource's hostGroup when that is not empty and to the host group the
    external client captured at connect time otherwise. Connect, once the
    configuration object is fetched, hands an empty URL on as
    "http://127.0.0.1:8080" and an empty host group as "api"; so a resource
    without hostGroup, connected through a configuration without hostGroup,
    has its calls sent to "api". *)
Theorem host_group_resolution :
  (forall (e : external) (cr : VM),
     let hg :=
       if String.eqb (v1alpha1.HostGroup (v1alpha1.ForProvider (v1alpha1.Spec cr))) ""
       then hostGroup e
       else v1alpha1.HostGroup (v1alpha1.ForProvider (v1alpha1.Spec cr)) in
     (meta.WasDeleted (v1alpha1.Meta cr) = false ->
      meta.GetExternalName cr <> "" ->
      calls (Observe e (ManagedVM cr)) = [CallGetHostGroupNodes hg])
     /\ (exists req, calls (Create e (ManagedVM cr)) = [CallCreateNode hg req])
     /\ (meta.GetExternalName cr <> "" ->
         calls (Delete e (ManagedVM cr)) = [CallDeleteVM hg (meta.GetExternalName cr)]))
  /\ (forall (c : connector) (cr : VM) (ref : v1alpha1.ProviderConfigReference)
        (obj : ConfigObject) (pc : apisv1alpha1.ProviderConfigSpec) (data : list byte),
        Track (usage c) cr = None ->
        v1alpha1.ProviderConfigReference_ (v1alpha1.Spec cr) = Some ref ->
        v1alpha1.ref_Kind ref =
          match obj with
          | ProviderConfig => "ProviderConfig"
          | ClusterProviderConfig => "ClusterProviderConfig"
          end ->
        Get (kube c) obj
          {| nn_Namespace := match obj with
                             | ProviderConfig => v1alpha1.Namespace (v1alpha1.Meta cr)
                             | ClusterProviderConfig => ""
                             end;
             nn_Name := v1alpha1.ref_Name ref |} = inr pc ->
        CommonCredentialExtractor (apisv1alpha1.Source (apisv1alpha1.Credentials pc))
          (kube c) (apisv1alpha1.Selectors (apisv1alpha1.Credentials pc)) = inr data ->
        exists e,
          connect_end (Connect CommonCredentialExtractor NewSlicerClient c (ManagedVM cr))
            = Returns (Some e, None)
          /\ client e =
               NewSlicerClient
                 (if String.eqb (apisv1alpha1.URL pc) ""
                  then "http://127.0.0.1:8080" else apisv1alpha1.URL pc)
                 (string_of_list_byte data) "provider-slicervm/1.0"
          /\ hostGroup e =
               (if String.eqb (apisv1alpha1.HostGroup pc) ""
                then "api" else apisv1alpha1.HostGroup pc)
          /\ (apisv1alpha1.HostGroup pc = "" ->
              v1alpha1.HostGroup (v1alpha1.ForProvider (v1alpha1.Spec cr)) = "" ->
              (meta.WasDeleted (v1alpha1.Meta cr) = false ->
               meta.GetExternalName cr <> "" ->
               calls (Observe e (ManagedVM cr)) = [CallGetHostGroupNodes "api"])
              /\ (exists req, calls (Create e (ManagedVM cr)) = [CallCreateNode "api" req])
              /\ (meta.GetExternalName cr <> "" ->
                  calls (Delete e (ManagedVM cr))
                    = [CallDeleteVM "api" (meta.GetExternalName cr)]))).
Proof.
  assert (Hops : forall (e : external) (cr : VM),
     let hg :=
       if String.eqb (v1alpha1.HostGroup (v1alpha1.ForProvider (v1alpha1.Spec cr))) ""
       then hostGroup e
       else v1alpha1.HostGroup (v1alpha1.ForProvider (v1alpha1.Spec cr)) in
     (meta.WasDeleted (v1alpha1.Meta cr) = false ->
      meta.GetExternalName cr <> "" ->
      calls (Observe e (ManagedVM cr)) = [CallGetHostGroupNodes hg])
     /\ (exists req, calls (Create e (ManagedVM cr)) = [CallCreateNode hg req])
     /\ (meta.GetExternalName cr <> "" ->
         calls (Delete e (ManagedVM cr)) = [CallDeleteVM hg (meta.GetExternalName cr)])).
  { intros e cr hg. subst hg. split; [|split].
    - intros Hlive Hname. adapter. rewrite Hlive.
      destruct (String.eqb_spec (meta.GetExternalName cr) "") as [|_]; [contradiction|].
      cbn [w_cr w_calls].
      destruct (sdk.GetHostGroupNodes _ _) as [err|nodes]; [reflexivity|].
      destruct (found nodes _); reflexivity.
    - destruct (Create_calls e cr) as (req & Hcalls & _). eauto.
    - apply Delete_calls. }
  split; [exact Hops|].
  intros c cr ref obj pc data Htrack Href Hkind Hget Hcreds.
  eexists. split; [eapply Connect_resolved; eassumption|].
  split; [reflexivity|]. split; [reflexivity|].
  intros Hpc Hcr.
  match goal with |- context [Observe ?e _] => set (conn := e) end.
  assert (Hhg : hostGroup conn = "api") by (subst conn; cbn; rewrite Hpc; reflexivity).
  clearbody conn. pose proof (Hops conn cr) as H.
  cbn zeta in H. rewrite Hhg, Hcr in H.
  exact H.
Qed.

(** C8, as the code has it. For a VM whose provider-config reference has a
    kind other than "ProviderConfig" and "ClusterProviderConfig", Connect
    asks for nothing but the usage tracking: it fetches no configuration
    object and extracts no credentials; and when the tracking succeeded it
    returns no client and the error "unsupported provider config kind: "
    followed by the kind. *)
Theorem Connect_unsupported_kind (c : connector) (cr : VM)
    (ref : v1alpha1.ProviderConfigReference) :
  v1alpha1.ProviderConfigReference_ (v1alpha1.Spec cr) = Some ref ->
  v1alpha1.ref_Kind ref <> "ProviderConfig" ->
  v1alpha1.ref_Kind ref <> "ClusterProviderConfig" ->
  let r := Connect CommonCredentialExtractor NewSlicerClient c (ManagedVM cr) in
  (Track (usage c) cr = None ->
   connect_end r =
     Returns (None, Some ("unsupported provider config kind: " ++ v1alpha1.ref_Kind ref)))
  /\ connect_calls r = [CallTrack]
  /\ (forall obj key, ~ In (CallGet obj key) (connect_calls r))
  /\ (forall source selectors,
        ~ In (CallCredentialExtractor source selectors) (connect_calls r)).
Proof.
  intros Href Hpc Hcpc r.
  assert (Hcalls : connect_calls r = [CallTrack]).
  { subst r. unfold Connect. destruct (Track (usage c) cr); [reflexivity|].
    rewrite Href.
    destruct (String.eqb_spec (v1alpha1.ref_Kind ref) "ProviderConfig"); [contradiction|].
    destruct (String.eqb_spec (v1alpha1.ref_Kind ref) "ClusterProviderConfig");
      [contradiction|].
    reflexivity. }
  split; [|split; [exact Hcalls|split]].
  - intros Htrack. subst r. unfold Connect. rewrite Htrack, Href.
    destruct (String.eqb_spec (v1alpha1.ref_Kind ref) "ProviderConfig"); [contradiction|].
    destruct (String.eqb_spec (v1alpha1.ref_Kind ref) "ClusterProviderConfig");
      [contradiction|].
    reflexivity.
  - intros obj key. rewrite Hcalls. intros [Heq|[]]. discriminate.
  - intros source selectors. rewrite Hcalls. intros [Heq|[]]. discriminate.
Qed.

End ConnectorProperties.

(** ** The external name along a run *)

Lemma Observe_keeps_name (e : external) (mg : Managed) :
  externalNameOf (mg_after (Observe e mg)) = externalNameOf mg.
Proof.
  destruct mg as [cr|o]; [|reflexivity]. adapter.
  destruct (meta.WasDeleted _); [reflexivity|].
  destruct (String.eqb _ ""); [reflexivity|].
  cbn [w_cr w_calls].
  destruct (sdk.GetHostGroupNodes _ _) as [err|nodes]; [reflexivity|].
  destruct (found nodes _); reflexivity.
Qed.

Lemma Delete_keeps_name (e : external) (mg : Managed) :
  externalNameOf (mg_after (Delete e mg)) = externalNameOf mg.
Proof.
  destruct mg as [cr|o]; [|reflexivity]. adapter.
  destruct (String.eqb _ ""); [reflexivity|].
  cbn [w_cr w_calls].
  destruct (sdk.DeleteVM _ _ _); reflexivity.
Qed.

Lemma Create_failed_keeps_name (e : external) (mg : Managed) :
  snd (returned (Create e mg)) <> None ->
  externalNameOf (mg_after (Create e mg)) = externalNameOf mg.
Proof.
  destruct mg as [cr|o]; [|reflexivity]. adapter.
  destruct (sdk.CreateNode _ _ _) as [err|resp]; [reflexivity|].
  cbn. intros H. contradiction.
Qed.

Lemma Create_answered_name (e : external) (cr : VM)
    (hg : string) (req : sdk.SlicerCreateNodeRequest)
    (resp : sdk.SlicerCreateNodeResponse) :
  calls (Create e (ManagedVM cr)) = [CallCreateNode hg req] ->
  sdk.CreateNode (client e) hg req = inr resp ->
  externalNameOf (mg_after (Create e (ManagedVM cr))) = Some (sdk.resp_Hostname resp)
  /\ hostnameOf (mg_after (Create e (ManagedVM cr))) = Some (sdk.resp_Hostname resp).
Proof.
  adapter.
  match goal with |- context [sdk.CreateNode ?c ?h ?r] =>
    destruct (sdk.CreateNode c h r) as [err|resp'] eqn:Hanswer end;
    intros [= <- <-] Hresp;
    pose proof (eq_trans (eq_sym Hresp) Hanswer) as Hsame; [discriminate|].
  injection Hsame as <-. cbn. unfold meta.GetExternalName. cbn.
  rewrite lookup_insert_eq. split; reflexivity.
Qed.

Lemma Observe_keeps_identity (e : external) (mg : Managed) :
  externalNameOf mg = hostnameOf mg ->
  externalNameOf (mg_after (Observe e mg)) = hostnameOf (mg_after (Observe e mg)).
Proof.
  destruct mg as [cr|o]; [|reflexivity]. adapter.
  destruct (meta.WasDeleted _); [auto|].
  destruct (String.eqb _ ""); [auto|].
  cbn [w_cr w_calls].
  destruct (sdk.GetHostGroupNodes _ _) as [err|nodes]; [auto|].
  destruct (found nodes _) as [node|] eqn:Hfound; [|auto].
  intros _. apply found_In in Hfound as [_ Hnode].
  cbn. f_equal. symmetry. exact Hnode.
Qed.

Lemma Delete_keeps_identity (e : external) (mg : Managed) :
  externalNameOf mg = hostnameOf mg ->
  externalNameOf (mg_after (Delete e mg)) = hostnameOf (mg_after (Delete e mg)).
Proof.
  destruct mg as [cr|o]; [|reflexivity]. adapter.
  destruct (String.eqb _ ""); [auto|].
  cbn [w_cr w_calls].
  destruct (sdk.DeleteVM _ _ _); auto.
Qed.

Lemma Create_keeps_identity (e : external) (mg : Managed) :
  externalNameOf mg = hostnameOf mg ->
  externalNameOf (mg_after (Create e mg)) = hostnameOf (mg_after (Create e mg)).
Proof.
  destruct mg as [cr|o]; [|reflexivity]. adapter.
  destruct (sdk.CreateNode _ _ _) as [err|resp]; [auto|].
  intros _. cbn. unfold meta.GetExternalName. cbn.
  rewrite lookup_insert_eq. reflexivity.
Qed.

Lemma step_keeps_identity (mg : Managed) (s : Operation * external) :
  externalNameOf mg = hostnameOf mg ->
  externalNameOf (step mg s) = hostnameOf (step mg s).
Proof.
  destruct s as [[| | |] e]; cbn [step].
  - apply Observe_keeps_identity.
  - apply Create_keeps_identity.
  - auto.
  - apply Delete_keeps_identity.
Qed.

(** C9, as the code has it. Create is the one operation that writes the
    external name: a Create whose request succeeds sets it to the returned
    hostname, whether or not a name was set before, and a failing Create,
    Observe, Update and Delete leave it as it is. So the external name is
    unchanged along every sequence of operations without a Create, and
    along every sequence of operations the external name stays equal to the
    observed hostname once it is. *)
Theorem external_name_along_runs :
  (forall e mg, externalNameOf (mg_after (Observe e mg)) = externalNameOf mg)
  /\ (forall e mg, externalNameOf (mg_after (Update e mg)) = externalNameOf mg)
  /\ (forall e mg, externalNameOf (mg_after (Delete e mg)) = externalNameOf mg)
  /\ (forall e mg,
        snd (returned (Create e mg)) <> None ->
        externalNameOf (mg_after (Create e mg)) = externalNameOf mg)
  /\ (forall e cr hg req resp,
        calls (Create e (ManagedVM cr)) = [CallCreateNode hg req] ->
        sdk.CreateNode (client e) hg req = inr resp ->
        externalNameOf (mg_after (Create e (ManagedVM cr))) = Some (sdk.resp_Hostname resp)
        /\ hostnameOf (mg_after (Create e (ManagedVM cr))) = Some (sdk.resp_Hostname resp))
  /\ (forall ops mg,
        forallb (fun s => negb (isCreate s)) ops = true ->
        externalNameOf (steps ops mg) = externalNameOf mg)
  /\ (forall ops mg,
        externalNameOf mg = hostnameOf mg ->
        externalNameOf (steps ops mg) = hostnameOf (steps ops mg)).
Proof.
  split; [exact Observe_keeps_name|].
  split; [reflexivity|].
  split; [exact Delete_keeps_name|].
  split; [exact Create_failed_keeps_name|].
  split; [|split].
  - intros e cr hg req resp Hcalls Hresp.
    apply (Create_answered_name e cr hg req resp Hcalls Hresp).
  - intros ops. unfold steps.
    induction ops as [|[op e] ops IH]; intros mg Hops; [reflexivity|].
    cbn [forallb] in Hops. apply andb_true_iff in Hops as [Hop Hops].
    cbn [fold_left]. rewrite (IH _ Hops).
    destruct op; cbn [step].
    + apply Observe_keeps_name.
    + discriminate.
    + reflexivity.
    + apply Delete_keeps_name.
  - intros ops. unfold steps.
    induction ops as [|s ops IH]; intros mg Hinv; [exact Hinv|].
    cbn [fold_left]. apply IH. apply step_keeps_identity. exact Hinv.
Qed.

(** * Instances and counterexamples *)

Import Samples.

(** The resource bound to "vm-1" is observed in a group that lists "vm-2"
    and then "vm-1" twice: the first "vm-1" is the one copied. *)
Lemma Observe_first_match_witness :
  meta.WasDeleted (v1alpha1.Meta bound) = false
  /\ meta.GetExternalName bound <> ""
  /\ exists cr',
       mg_after (Observe e_up (ManagedVM bound)) = ManagedVM cr'
       /\ v1alpha1.AtProvider (v1alpha1.Status cr') =
            {| v1alpha1.Hostname := "vm-1"; v1alpha1.IP := "10.0.0.2";
               v1alpha1.State := "running";
               v1alpha1.CreatedAt := "2023-11-14 22:13:20 +0000 UTC" |}.
Proof.
  split; [reflexivity|]. split; [vm_compute; discriminate|].
  destruct (Observe_first_match e_up bound nodes eq_refl
              ltac:(vm_compute; discriminate) eq_refl) as (_ & Hfirst & _).
  destruct (Hfirst [node "vm-2" "10.0.0.3" t1] (node "vm-1" "10.0.0.2" t0)
              [node "vm-1" "10.0.0.9" t1] eq_refl eq_refl
              ltac:(constructor; [vm_compute; discriminate|constructor]))
    as (cr' & Hafter & Hobs & _).
  exists cr'. split; assumption.
Defined.


Lemma Create_request_defaults_witness :
  (exists hg req,
     calls (Create e_up (ManagedVM fresh)) = [CallCreateNode hg req]
     /\ sdk.CPUs req = 2 /\ sdk.RamGB req = 4)
  /\ (exists hg req,
        calls (Create e_up (ManagedVM sized)) = [CallCreateNode hg req]
        /\ sdk.CPUs req = 3 /\ sdk.RamGB req = 8).
Proof.
  split.
  - destruct (Create_request_defaults e_up fresh)
      as (hg & req & Hcalls & _ & _ & Hzero & _).
    exists hg, req. split; [exact Hcalls|]. apply Hzero; reflexivity.
  - destruct (Create_request_defaults e_up sized)
      as (hg & req & Hcalls & _ & _ & _ & Hset).
    exists hg, req. split; [exact Hcalls|]. apply Hset; reflexivity.
Defined.

(** The resource marked for deletion is bound to "vm-1", which the remote
    lists; the fresh one has no external name. *)
Lemma Observe_deleted_or_unnamed_witness :
  calls (Observe e_up (ManagedVM leaving)) = []
  /\ returned (Observe e_up (ManagedVM leaving)) = (managed.ExternalObservation_zero, None)
  /\ calls (Observe e_up (ManagedVM fresh)) = [].
Proof.
  rewrite (Observe_deleted_or_unnamed e_up leaving (or_introl eq_refl)).
  rewrite (Observe_deleted_or_unnamed e_up fresh (or_intror eq_refl)).
  repeat split.
Defined.

Lemma Delete_marks_then_deletes_witness :
  (calls (Delete e_up (ManagedVM fresh)) = []
   /\ snd (returned (Delete e_up (ManagedVM fresh))) = None)
  /\ calls (Delete e_down (ManagedVM bound)) = [CallDeleteVM "api" "vm-1"]
  /\ snd (returned (Delete e_down (ManagedVM bound)))
       = Some "cannot delete VM: connection refused".
Proof.
  split.
  - destruct (Delete_marks_then_deletes e_up fresh) as (cr' & _ & _ & Hunnamed & _).
    apply Hunnamed. reflexivity.
  - destruct (Delete_marks_then_deletes e_down bound) as (cr' & _ & _ & _ & Hnamed).
    destruct (Hnamed ltac:(vm_compute; discriminate)) as (Hcalls & Hfail & _).
    split; [exact Hcalls|]. apply (Hfail "connection refused"). reflexivity.
Defined.

(** C5 as stated fails: a VM without an external name and without
    conditions has the Deleting condition after Delete. *)
Lemma Delete_unnamed_sets_Deleting :
  ~ (forall (e : external) (cr : VM),
       xpv1.GetCondition (conditionsOf (ManagedVM cr)) xpv1.TypeReady <> xpv1.Deleting ->
       xpv1.GetCondition (conditionsOf (mg_after (Delete e (ManagedVM cr)))) xpv1.TypeReady
         = xpv1.Deleting ->
       meta.GetExternalName cr <> "").
Proof.
  intros H.
  apply (H e_up fresh); [vm_compute; discriminate|reflexivity|reflexivity].
Qed.

Lemma host_group_resolution_witness :
  calls (Observe e_up (ManagedVM bound)) = [CallGetHostGroupNodes "api"]
  /\ (exists req, calls (Create e_down (ManagedVM sized)) = [CallCreateNode "custom" req])
  /\ exists e,
       connect_end (Connect extractor newClient tracking (ManagedVM clustered))
         = Returns (Some e, None)
       /\ hostGroup e = "api"
       /\ exists req, calls (Create e (ManagedVM clustered)) = [CallCreateNode "api" req].
Proof.
  destruct (host_group_resolution extractor newClient) as [Hops Hconnect].
  split; [|split].
  - apply (proj1 (Hops e_up bound)); [reflexivity|vm_compute; discriminate].
  - exact (proj1 (proj2 (Hops e_down sized))).
  - destruct (Hconnect tracking clustered
                {| v1alpha1.ref_Kind := "ClusterProviderConfig";
                   v1alpha1.ref_Name := "default" |}
                ClusterProviderConfig
                {| apisv1alpha1.Credentials := credentials; apisv1alpha1.URL := "";
                   apisv1alpha1.HostGroup := "" |}
                (list_byte_of_string "s3cr3t")
                eq_refl eq_refl eq_refl eq_refl eq_refl)
      as (e & Hend & _ & Hhg & Hapi).
    exists e. split; [exact Hend|]. split; [exact Hhg|].
    exact (proj1 (proj2 (Hapi eq_refl eq_refl))).
Defined.

Lemma Connect_unsupported_kind_witness :
  connect_end (Connect extractor newClient tracking (ManagedVM odd))
    = Returns (None, Some "unsupported provider config kind: Secret")
  /\ connect_calls (Connect extractor newClient tracking (ManagedVM odd)) = [CallTrack].
Proof.
  destruct (Connect_unsupported_kind extractor newClient tracking odd
              {| v1alpha1.ref_Kind := "Secret"; v1alpha1.ref_Name := "default" |}
              eq_refl ltac:(discriminate) ltac:(discriminate))
    as (Hend & Hcalls & _).
  split; [exact (Hend eq_refl)|exact Hcalls].
Defined.

(** C8 as stated fails: when the usage tracking fails, the error of a
    reference of kind "Secret" is the tracking error. *)
Lemma Connect_untracked_unsupported_kind :
  ~ (forall (cce : string -> KubeClient -> apisv1alpha1.CommonCredentialSelectors ->
              sdk.answer (list byte))
       (nsc : string -> string -> string -> sdk.SlicerClient)
       (c : connector) (cr : VM) (ref : v1alpha1.ProviderConfigReference),
       v1alpha1.ProviderConfigReference_ (v1alpha1.Spec cr) = Some ref ->
       v1alpha1.ref_Kind ref <> "ProviderConfig" ->
       v1alpha1.ref_Kind ref <> "ClusterProviderConfig" ->
       connect_end (Connect cce nsc c (ManagedVM cr)) =
         Returns (None,
                  Some ("unsupported provider config kind: " ++ v1alpha1.ref_Kind ref))).
Proof.
  intros H.
  specialize (H extractor newClient untracked odd
                {| v1alpha1.ref_Kind := "Secret"; v1alpha1.ref_Name := "default" |}
                eq_refl ltac:(discriminate) ltac:(discriminate)).
  vm_compute in H. discriminate.
Qed.

Lemma external_name_along_runs_witness :
  externalNameOf (mg_after (Create e_down (ManagedVM bound))) = Some "vm-1"
  /\ externalNameOf (mg_after (Create e_up (ManagedVM fresh))) = Some "vm-2"
  /\ externalNameOf
       (steps [(OpObserve, e_up); (OpUpdate, e_up); (OpDelete, e_down)] (ManagedVM bound))
     = Some "vm-1"
  /\ externalNameOf (steps [(OpCreate, e_up); (OpObserve, e_lost); (OpCreate, e_lost)]
                       (ManagedVM fresh))
     = hostnameOf (steps [(OpCreate, e_up); (OpObserve, e_lost); (OpCreate, e_lost)]
                     (ManagedVM fresh)).
Proof.
  destruct external_name_along_runs
    as (_ & _ & _ & Hfailed & Hbound & Hread & Hinv).
  split; [|split; [|split]].
  - apply (Hfailed e_down (ManagedVM bound)). vm_compute. discriminate.
  - apply (Hbound e_up fresh "api"
             {| sdk.RamGB := 4; sdk.CPUs := 2; sdk.Userdata := "";
                sdk.SSHKeys := []; sdk.ImportUser := ""; sdk.Tags := [] |}
             {| sdk.resp_Hostname := "vm-2"; sdk.resp_IP := "10.0.0.3";
                sdk.resp_CreatedAt := t1 |} eq_refl eq_refl).
  - apply (Hread [(OpObserve, e_up); (OpUpdate, e_up); (OpDelete, e_down)]
             (ManagedVM bound)). reflexivity.
  - apply Hinv. reflexivity.
Defined.

(** C9 as stated fails: the VM bound to "vm-1" is observed on a remote that
    has lost the node, is created again, and is bound to "vm-2". *)
Lemma Create_rebinds_external_name :
  ~ (forall (ops : list (Operation * external)) (mg : Managed) (name : string),
       name <> "" ->
       externalNameOf mg = Some name ->
       externalNameOf (steps ops mg) = Some name).
Proof.
  intros H.
  specialize (H [(OpObserve, e_lost); (OpCreate, e_lost)] (ManagedVM bound) "vm-1"
                ltac:(discriminate) eq_refl).
  vm_compute in H. discriminate.
Qed.

Lemma Observe_publishes_nothing_witness :
  (exists cr',
     mg_after (Observe e_up (ManagedVM bound)) = ManagedVM cr'
     /\ v1alpha1.IP (v1alpha1.AtProvider (v1alpha1.Status cr')) = "10.0.0.2"
     /\ managed.ConnectionDetails (fst (returned (Observe e_up (ManagedVM bound)))) = ∅)
  /\ exists ip,
       managed.creation_ConnectionDetails (fst (returned (Create e_up (ManagedVM bound))))
         !! "ip" = Some (list_byte_of_string ip).
Proof.
  destruct (Observe_publishes_nothing e_up (ManagedVM bound))
    as (_ & Hfound & _ & Hcreate).
  split.
  - apply (Hfound bound (node "vm-1" "10.0.0.2" t0) eq_refl eq_refl
             ltac:(vm_compute; discriminate)).
    exists nodes. split; reflexivity.
  - destruct (Hcreate eq_refl) as (ip & Hip & _). exists ip. exact Hip.
Defined.

(** * Further properties of the adapter *)

(** ** Connect: failures and the order of its requests *)

Section ConnectorPaths.

Variable CommonCredentialExtractor :
  string -> KubeClient -> apisv1alpha1.CommonCredentialSelectors -> sdk.answer (list byte).
Variable NewSlicerClient : string -> string -> string -> sdk.SlicerClient.

(** The object kind and the key a reference makes [Connect] fetch. *)
Lemma Connect_paths (c : connector) (cr : VM) :
  let r := Connect CommonCredentialExtractor NewSlicerClient c (ManagedVM cr) in
  (exists err, Track (usage c) cr = Some err /\
     r = {| connect_calls := [CallTrack];
            connect_end := Returns (None, Some (errors.Wrap err errTrackPCUsage)) |})
  \/ (Track (usage c) cr = None /\
      v1alpha1.ProviderConfigReference_ (v1alpha1.Spec cr) = None /\
      r = {| connect_calls := [CallTrack]; connect_end := Panics |})
  \/ (exists ref, Track (usage c) cr = None /\
        v1alpha1.ProviderConfigReference_ (v1alpha1.Spec cr) = Some ref /\
        v1alpha1.ref_Kind ref <> "ProviderConfig" /\
        v1alpha1.ref_Kind ref <> "ClusterProviderConfig" /\
        r = {| connect_calls := [CallTrack];
               connect_end :=
                 Returns (None, Some ("unsupported provider config kind: "
                                        ++ v1alpha1.ref_Kind ref)) |})
  \/ (exists ref obj,
        let key := {| nn_Namespace := match obj with
                                      | ProviderConfig => v1alpha1.Namespace (v1alpha1.Meta cr)
                                      | ClusterProviderConfig => ""
                                      end;
                      nn_Name := v1alpha1.ref_Name ref |} in
        Track (usage c) cr = None /\
        v1alpha1.ProviderConfigReference_ (v1alpha1.Spec cr) = Some ref /\
        v1alpha1.ref_Kind ref = match obj with
                                | ProviderConfig => "ProviderConfig"
                                | ClusterProviderConfig => "ClusterProviderConfig"
                                end /\
        ((exists err, Get (kube c) obj key = inl err /\
            r = {| connect_calls := [CallTrack; CallGet obj key];
                   connect_end :=
                     Returns (None,
                              Some (errors.Wrap err
                                      match obj with
                                      | ProviderConfig => errGetPC
                                      | ClusterProviderConfig => errGetCPC
                                      end)) |})
         \/ (exists pc, Get (kube c) obj key = inr pc /\
               let cd := apisv1alpha1.Credentials pc in
               let asked :=
                 [CallTrack; CallGet obj key;
                  CallCredentialExtractor (apisv1alpha1.Source cd) (apisv1alpha1.Selectors cd)] in
               ((exists err,
                   CommonCredentialExtractor (apisv1alpha1.Source cd) (kube c)
                     (apisv1alpha1.Selectors cd) = inl err /\
                   r = {| connect_calls := asked;
                          connect_end := Returns (None, Some (errors.Wrap err errGetCreds)) |})
                \/ (exists data e,
                      CommonCredentialExtractor (apisv1alpha1.Source cd) (kube c)
                        (apisv1alpha1.Selectors cd) = inr data /\
                      r = {| connect_calls := asked;
                             connect_end := Returns (Some e, None) |}))))).
Proof.
  intros r. subst r. unfold Connect.
  destruct (Track (usage c) cr) as [err|] eqn:Htrack; [left; eauto|right].
  destruct (v1alpha1.ProviderConfigReference_ (v1alpha1.Spec cr)) as [ref|] eqn:Href;
    [right|left; auto].
  destruct (String.eqb_spec (v1alpha1.ref_Kind ref) "ProviderConfig") as [Hpc|Hpc].
  - right. exists ref, ProviderConfig. cbn zeta.
    split; [reflexivity|]. split; [reflexivity|]. split; [exact Hpc|].
    destruct (Get (kube c) ProviderConfig _) as [err|pc]; [left; eauto|right].
    exists pc. split; [reflexivity|]. unfold connectWith.
    destruct (CommonCredentialExtractor _ _ _) as [err|data]; [left|right]; eauto.
  - destruct (String.eqb_spec (v1alpha1.ref_Kind ref) "ClusterProviderConfig") as [Hcpc|Hcpc].
    + right. exists ref, ClusterProviderConfig. cbn zeta.
      split; [reflexivity|]. split; [reflexivity|]. split; [exact Hcpc|].
      destruct (Get (kube c) ClusterProviderConfig _) as [err|cpc]; [left; eauto|right].
      exists cpc. split; [reflexivity|]. unfold connectWith.
      destruct (CommonCredentialExtractor _ _ _) as [err|data]; [left|right]; eauto.
    + left. exists ref. auto.
Qed.



(** X3. What Connect fetches follows the reference: a reference of kind
    "ProviderConfig" makes it fetch a ProviderConfig named as the reference
    says in the namespace of the VM, a reference of kind
    "ClusterProviderConfig" a ClusterProviderConfig of that name with no
    namespace; nothing else is ever fetched. *)
Theorem Connect_fetch_scope (c : connector) (mg : Managed)
    (obj : ConfigObject) (key : NamespacedName) :
  In (CallGet obj key)
     (connect_calls (Connect CommonCredentialExtractor NewSlicerClient c mg)) ->
  exists cr ref,
    mg = ManagedVM cr /\
    v1alpha1.ProviderConfigReference_ (v1alpha1.Spec cr) = Some ref /\
    nn_Name key = v1alpha1.ref_Name ref /\
    ((obj = ProviderConfig /\ v1alpha1.ref_Kind ref = "ProviderConfig" /\
      nn_Namespace key = v1alpha1.Namespace (v1alpha1.Meta cr))
     \/ (obj = ClusterProviderConfig /\ v1alpha1.ref_Kind ref = "ClusterProviderConfig" /\
         nn_Namespace key = "")).
Proof.
  destruct mg as [cr|o]; [|intros []].
  destruct (Connect_paths c cr)
    as [(err & Htrack & ->)
       |[(Htrack & Href & ->)
        |[(ref & Htrack & Href & _ & _ & ->)
         |(ref & obj' & Htrack & Href & Hkind &
           [(err & _ & ->)|(pc & Hget & [(err & _ & ->)|(data & e & _ & ->)])])]]];
    cbn [connect_calls]; intros Hin; cbn in Hin;
    repeat (destruct Hin as [Hin|Hin]; try discriminate Hin); try contradiction;
    injection Hin as <- <-; exists cr, ref;
    (split; [reflexivity|]); (split; [exact Href|]); (split; [reflexivity|]);
    (destruct obj'; [left|right]); auto.
Qed.

(** X4. Each failure of a collaborator ends Connect with no client and the
    collaborator's error behind a fixed prefix: "cannot track
    ProviderConfig usage" for the tracker, "cannot get ProviderConfig" or
    "cannot get ClusterProviderConfig" for the fetch, by the kind fetched,
    and "cannot get credentials" for the extraction; no later step is
    taken. *)
Theorem Connect_surfaces_failures (c : connector) (cr : VM) :
  let r := Connect CommonCredentialExtractor NewSlicerClient c (ManagedVM cr) in
  (forall err,
     Track (usage c) cr = Some err ->
     r = {| connect_calls := [CallTrack];
            connect_end :=
              Returns (None, Some ("cannot track ProviderConfig usage: " ++ err)) |})
  /\ (forall ref obj err,
        let key := {| nn_Namespace := match obj with
                                      | ProviderConfig => v1alpha1.Namespace (v1alpha1.Meta cr)
                                      | ClusterProviderConfig => ""
                                      end;
                      nn_Name := v1alpha1.ref_Name ref |} in
        Track (usage c) cr = None ->
        v1alpha1.ProviderConfigReference_ (v1alpha1.Spec cr) = Some ref ->
        v1alpha1.ref_Kind ref = match obj with
                                | ProviderConfig => "ProviderConfig"
                                | ClusterProviderConfig => "ClusterProviderConfig"
                                end ->
        Get (kube c) obj key = inl err ->
        r = {| connect_calls := [CallTrack; CallGet obj key];
               connect_end :=
                 Returns (None,
                          Some (match obj with
                                | ProviderConfig => "cannot get ProviderConfig: "
                                | ClusterProviderConfig => "cannot get ClusterProviderConfig: "
                                end ++ err)) |})
  /\ (forall ref obj pc err,
        let key := {| nn_Namespace := match obj with
                                      | ProviderConfig => v1alpha1.Namespace (v1alpha1.Meta cr)
                                      | ClusterProviderConfig => ""
                                      end;
                      nn_Name := v1alpha1.ref_Name ref |} in
        Track (usage c) cr = None ->
        v1alpha1.ProviderConfigReference_ (v1alpha1.Spec cr) = Some ref ->
        v1alpha1.ref_Kind ref = match obj with
                                | ProviderConfig => "ProviderConfig"
                                | ClusterProviderConfig => "ClusterProviderConfig"
                                end ->
        Get (kube c) obj key = inr pc ->
        CommonCredentialExtractor (apisv1alpha1.Source (apisv1alpha1.Credentials pc))
          (kube c) (apisv1alpha1.Selectors (apisv1alpha1.Credentials pc)) = inl err ->
        r = {| connect_calls :=
                 [CallTrack; CallGet obj key;
                  CallCredentialExtractor (apisv1alpha1.Source (apisv1alpha1.Credentials pc))
                    (apisv1alpha1.Selectors (apisv1alpha1.Credentials pc))];
               connect_end := Returns (None, Some ("cannot get credentials: " ++ err)) |}).
Proof.
  intros r. subst r. unfold Connect. split; [|split].
  - intros err ->. reflexivity.
  - intros ref obj err. cbn zeta. intros Htrack Href Hkind Hget.
    rewrite Htrack, Href, Hkind.
    destruct obj; cbn [String.eqb Ascii.eqb Bool.eqb]; rewrite Hget; reflexivity.
  - intros ref obj pc err. cbn zeta. intros Htrack Href Hkind Hget Hcreds.
    rewrite Htrack, Href, Hkind.
    destruct obj; cbn [String.eqb Ascii.eqb Bool.eqb]; rewrite Hget;
      unfold connectWith; rewrite Hcreds; reflexivity.
Qed.

End ConnectorPaths.

(** ** The operations, path by path *)



(** The outcome of Observe on a VM, path by path. *)
Lemma Observe_paths (e : external) (cr : VM) :
  let o := Observe e (ManagedVM cr) in
  let name := meta.GetExternalName cr in
  let quiet := {| mg_after := ManagedVM cr; calls := [];
                  returned := (managed.ExternalObservation_zero, None) |} in
  (meta.WasDeleted (v1alpha1.Meta cr) = true /\ o = quiet)
  \/ (meta.WasDeleted (v1alpha1.Meta cr) = false /\ name = "" /\ o = quiet)
  \/ (meta.WasDeleted (v1alpha1.Meta cr) = false /\ name <> "" /\
      ((exists err,
          sdk.GetHostGroupNodes (client e) (hostGroupFor e cr) = inl err /\
          o = {| mg_after := ManagedVM cr;
                 calls := [CallGetHostGroupNodes (hostGroupFor e cr)];
                 returned := (managed.ExternalObservation_zero,
                              Some (errors.Wrap err "cannot list VMs")) |})
       \/ (exists nodes,
             sdk.GetHostGroupNodes (client e) (hostGroupFor e cr) = inr nodes /\
             found nodes name = None /\
             o = {| mg_after := ManagedVM cr;
                    calls := [CallGetHostGroupNodes (hostGroupFor e cr)];
                    returned := (managed.ExternalObservation_zero, None) |})
       \/ (exists nodes node,
             sdk.GetHostGroupNodes (client e) (hostGroupFor e cr) = inr nodes /\
             found nodes name = Some node /\
             o = {| mg_after :=
                      ManagedVM
                        {| v1alpha1.Meta := v1alpha1.Meta cr;
                           v1alpha1.Spec := v1alpha1.Spec cr;
                           v1alpha1.Status :=
                             {| v1alpha1.Conditions :=
                                  xpv1.SetCondition
                                    (v1alpha1.Conditions (v1alpha1.Status cr))
                                    xpv1.Available;
                                v1alpha1.AtProvider :=
                                  {| v1alpha1.Hostname := sdk.Hostname node;
                                     v1alpha1.IP := sdk.IP node;
                                     v1alpha1.State := "running";
                                     v1alpha1.CreatedAt :=
                                       Time_String (sdk.CreatedAt node) |} |} |};
                    calls := [CallGetHostGroupNodes (hostGroupFor e cr)];
                    returned :=
                      ({| managed.ResourceExists := true;
                          managed.ResourceUpToDate := true;
                          managed.ResourceLateInitialized := false;
                          managed.ConnectionDetails := ∅;
                          managed.Diff := "" |}, None) |}))).
Proof.
  intros o name quiet. subst o name quiet. unfold hostGroupFor. adapter.
  destruct (meta.WasDeleted (v1alpha1.Meta cr)); [left; auto|right].
  destruct (String.eqb_spec (meta.GetExternalName cr) "") as [Hname|Hname];
    [left; auto|right].
  split; [reflexivity|]. split; [exact Hname|].
  cbn [w_cr w_calls].
  destruct (sdk.GetHostGroupNodes _ _) as [err|nodes] eqn:Hlist; [left; eauto|right].
  destruct (found nodes _) as [node|] eqn:Hfound; [right|left].
  - exists nodes, node. split; [reflexivity|]. split; [exact Hfound|reflexivity].
  - exists nodes. split; [reflexivity|]. split; [exact Hfound|reflexivity].
Qed.


(** The outcome of Create on a VM: the request is sent, and the answer
    decides. *)
Lemma Create_paths (e : external) (cr : VM) :
  let o := Create e (ManagedVM cr) in
  let sent := [CallCreateNode (hostGroupFor e cr) (requestFor cr)] in
  (exists err,
     sdk.CreateNode (client e) (hostGroupFor e cr) (requestFor cr) = inl err /\
     o = {| mg_after := ManagedVM (v1alpha1.SetConditions [xpv1.Creating] cr);
            calls := sent;
            returned := (managed.ExternalCreation_zero,
                         Some (errors.Wrap err "cannot create VM")) |})
  \/ (exists resp,
        sdk.CreateNode (client e) (hostGroupFor e cr) (requestFor cr) = inr resp /\
        o = {| mg_after :=
                 ManagedVM
                   {| v1alpha1.Meta :=
                        {| v1alpha1.Name := v1alpha1.Name (v1alpha1.Meta cr);
                           v1alpha1.Namespace := v1alpha1.Namespace (v1alpha1.Meta cr);
                           v1alpha1.DeletionTimestamp :=
                             v1alpha1.DeletionTimestamp (v1alpha1.Meta cr);
                           v1alpha1.Annotations :=
                             <[meta.AnnotationKeyExternalName := sdk.resp_Hostname resp]>
                               (v1alpha1.Annotations (v1alpha1.Meta cr)) |};
                      v1alpha1.Spec := v1alpha1.Spec cr;
                      v1alpha1.Status :=
                        {| v1alpha1.Conditions :=
                             xpv1.SetCondition (v1alpha1.Conditions (v1alpha1.Status cr))
                               xpv1.Creating;
                           v1alpha1.AtProvider :=
                             {| v1alpha1.Hostname := sdk.resp_Hostname resp;
                                v1alpha1.IP := sdk.resp_IP resp;
                                v1alpha1.State :=
                                  v1alpha1.State (v1alpha1.AtProvider (v1alpha1.Status cr));
                                v1alpha1.CreatedAt :=
                                  Time_String (sdk.resp_CreatedAt resp) |} |} |};
               calls := sent;
               returned :=
                 ({| managed.creation_ConnectionDetails :=
                       <["ip" := list_byte_of_string (sdk.resp_IP resp)]>
                         (<["hostname" := list_byte_of_string (sdk.resp_Hostname resp)]> ∅) |},
                  None) |}).
Proof.
  intros o sent. subst o sent. unfold hostGroupFor. adapter.
  assert (Hreq : forall p : v1alpha1.VMParameters,
            (let req := {| sdk.RamGB := v1alpha1.RAMGB p; sdk.CPUs := v1alpha1.CPUs p;
                           sdk.Userdata := v1alpha1.Userdata p;
                           sdk.SSHKeys := []; sdk.ImportUser := ""; sdk.Tags := [] |} in
             let req := if sdk.RamGB req =? 0 then sdk.set_RamGB 4 req else req in
             let req := if sdk.CPUs req =? 0 then sdk.set_CPUs 2 req else req in
             let req := if (0 <? length (v1alpha1.SSHKeys p))%nat
                        then sdk.set_SSHKeys (v1alpha1.SSHKeys p) req else req in
             let req := if negb (String.eqb (v1alpha1.ImportUser p) "")
                        then sdk.set_ImportUser (v1alpha1.ImportUser p) req else req in
             if (0 <? length (v1alpha1.Tags p))%nat
             then sdk.set_Tags (v1alpha1.Tags p) req else req)
            = {| sdk.RamGB := if v1alpha1.RAMGB p =? 0 then 4 else v1alpha1.RAMGB p;
                 sdk.CPUs := if v1alpha1.CPUs p =? 0 then 2 else v1alpha1.CPUs p;
                 sdk.Userdata := v1alpha1.Userdata p;
                 sdk.SSHKeys := v1alpha1.SSHKeys p;
                 sdk.ImportUser := v1alpha1.ImportUser p;
                 sdk.Tags := v1alpha1.Tags p |}).
  { intros [hg cpus ram ud keys user tags]. cbn.
    destruct (ram =? 0); cbn; destruct (cpus =? 0); cbn;
      destruct keys; cbn;
      (destruct (String.eqb_spec user "") as [->|_]); cbn;
      destruct tags; reflexivity. }
  cbn zeta in Hreq.
  change (v1alpha1.Spec (v1alpha1.SetConditions [xpv1.Creating] cr))
    with (v1alpha1.Spec cr).
  rewrite (Hreq (v1alpha1.ForProvider (v1alpha1.Spec cr))).
  fold (requestFor cr).
  destruct (sdk.CreateNode _ _ _) as [err|resp] eqn:Hanswer; [left|right].
  - exists err. split; reflexivity.
  - exists resp. split; reflexivity.
Qed.

(** The outcome of Delete on a VM. *)
Lemma Delete_paths (e : external) (cr : VM) :
  let o := Delete e (ManagedVM cr) in
  let name := meta.GetExternalName cr in
  let marked := ManagedVM (v1alpha1.SetConditions [xpv1.Deleting] cr) in
  (name = "" /\
   o = {| mg_after := marked; calls := [];
          returned := (managed.ExternalDelete_zero, None) |})
  \/ (name <> "" /\
      exists answer,
        sdk.DeleteVM (client e) (hostGroupFor e cr) name = answer /\
        o = {| mg_after := marked;
               calls := [CallDeleteVM (hostGroupFor e cr) name];
               returned :=
                 (managed.ExternalDelete_zero,
                  match answer with
                  | inl err => Some (errors.Wrap err "cannot delete VM")
                  | inr _ => None
                  end) |}).
Proof.
  intros o name marked. subst o name marked. unfold hostGroupFor. adapter.
  change (meta.GetExternalName (v1alpha1.SetConditions [xpv1.Deleting] cr))
    with (meta.GetExternalName cr).
  change (v1alpha1.Spec (v1alpha1.SetConditions [xpv1.Deleting] cr))
    with (v1alpha1.Spec cr).
  destruct (String.eqb_spec (meta.GetExternalName cr) "") as [Hname|Hname];
    [left; auto|right].
  split; [exact Hname|]. cbn [w_cr w_calls].
  eexists. split; [reflexivity|].
  destruct (sdk.DeleteVM _ _ _); reflexivity.
Qed.

(** ** Observe, Create and Delete: errors, frame and repetition *)

(** X5. Observe, Create and Delete return the error "managed resource is
    not a VM custom resource" exactly when the managed resource is not a
    VM, and then issue no remote call and leave the resource untouched. *)
Theorem errNotVM_exactly_for_other_kinds (e : external) (mg : Managed) :
  (snd (returned (Observe e mg)) = Some "managed resource is not a VM custom resource"
   <-> exists o, mg = ManagedOther o)
  /\ (snd (returned (Create e mg)) = Some "managed resource is not a VM custom resource"
      <-> exists o, mg = ManagedOther o)
  /\ (snd (returned (Delete e mg)) = Some "managed resource is not a VM custom resource"
      <-> exists o, mg = ManagedOther o)
  /\ ((exists o, mg = ManagedOther o) ->
      calls (Observe e mg) = [] /\ mg_after (Observe e mg) = mg /\
      calls (Create e mg) = [] /\ mg_after (Create e mg) = mg /\
      calls (Delete e mg) = [] /\ mg_after (Delete e mg) = mg).
Proof.
  destruct mg as [cr|o].
  - assert (Hno : ~ exists o, ManagedVM cr = ManagedOther o)
      by (intros (o & Ho); discriminate Ho).
    split; [|split; [|split]].
    + split; [|intros H; contradiction].
      destruct (Observe_paths e cr)
        as [(_ & ->)|[(_ & _ & ->)
           |(_ & _ & [(err & _ & ->)|[(nodes & _ & _ & ->)|(nodes & node & _ & _ & ->)]])]];
        cbn; discriminate.
    + split; [|intros H; contradiction].
      destruct (Create_paths e cr) as [(err & _ & ->)|(resp & _ & ->)];
        cbn; discriminate.
    + split; [|intros H; contradiction].
      destruct (Delete_paths e cr) as [(_ & ->)|(_ & answer & _ & ->)];
        cbn; [discriminate|]. destruct answer; cbn; discriminate.
    + intros H. contradiction.
  - cbn. repeat split; eauto.
Qed.

(** X6. When the listing call fails, Observe returns the zero observation
    and the error "cannot list VMs: " followed by the cause, after that one
    call, and leaves the resource, stale observation included, as it
    was. *)
Theorem Observe_listing_failure (e : external) (cr : VM) (hg : string) (err : error) :
  calls (Observe e (ManagedVM cr)) = [CallGetHostGroupNodes hg] ->
  sdk.GetHostGroupNodes (client e) hg = inl err ->
  Observe e (ManagedVM cr) =
    {| mg_after := ManagedVM cr;
       calls := [CallGetHostGroupNodes hg];
       returned := (managed.ExternalObservation_zero, Some ("cannot list VMs: " ++ err)) |}.
Proof.
  destruct (Observe_paths e cr)
    as [(_ & ->)|[(_ & _ & ->)
       |(_ & _ & [(err' & Hlist & ->)
                 |[(nodes & Hlist & _ & ->)|(nodes & node & Hlist & _ & ->)]])]];
    cbn [calls]; intros [= <-] Herr;
    first [congruence | assert (err' = err) by congruence; subst err'; reflexivity].
Qed.

(** X7. Observe writes nothing but the observation and the conditions, and
    those only when it reports the VM as existing: the spec, the name, the
    namespace, the deletion timestamp and the annotations are never
    touched, and whenever ResourceExists is false the whole resource is as
    it was. *)
Theorem Observe_frame (e : external) (mg : Managed) :
  keptOf (mg_after (Observe e mg)) = keptOf mg
  /\ externalNameOf (mg_after (Observe e mg)) = externalNameOf mg
  /\ (managed.ResourceExists (fst (returned (Observe e mg))) = false ->
      mg_after (Observe e mg) = mg).
Proof.
  destruct mg as [cr|o]; [|repeat split].
  destruct (Observe_paths e cr)
    as [(_ & ->)|[(_ & _ & ->)
       |(_ & _ & [(err' & Hlist & ->)
                 |[(nodes & Hlist & _ & ->)|(nodes & node & Hlist & _ & ->)]])]];
    cbn; repeat split; discriminate.
Qed.


(** X9. Whenever Observe reports that the VM exists, it also reports it up
    to date, with no error and no late initialization; the VM was then not
    marked for deletion, had an external name, and its observed hostname
    is that external name and its observed state is "running". *)
Theorem Observe_exists_is_current (e : external) (mg : Managed) :
  managed.ResourceExists (fst (returned (Observe e mg))) = true ->
  managed.ResourceUpToDate (fst (returned (Observe e mg))) = true
  /\ managed.ResourceLateInitialized (fst (returned (Observe e mg))) = false
  /\ snd (returned (Observe e mg)) = None
  /\ exists cr cr',
       mg = ManagedVM cr /\ mg_after (Observe e mg) = ManagedVM cr' /\
       meta.WasDeleted (v1alpha1.Meta cr) = false /\
       meta.GetExternalName cr <> "" /\
       v1alpha1.Hostname (v1alpha1.AtProvider (v1alpha1.Status cr'))
         = meta.GetExternalName cr /\
       v1alpha1.State (v1alpha1.AtProvider (v1alpha1.Status cr')) = "running".
Proof.
  destruct mg as [cr|o]; [|discriminate].
  destruct (Observe_paths e cr)
    as [(_ & ->)|[(_ & _ & ->)
       |(Hlive & Hname & [(err' & Hlist & ->)
                 |[(nodes & Hlist & _ & ->)|(nodes & node & Hlist & Hfound & ->)]])]];
    cbn; try discriminate.
  intros _. repeat (split; [reflexivity|]).
  eexists cr, _. split; [reflexivity|]. split; [reflexivity|].
  cbn. apply found_In in Hfound as [_ Hnode]. auto.
Qed.

(** X10. Each operation issues at most one remote call and only of its own
    kind: Observe lists, Create creates, Delete deletes, Update calls
    nothing; and Create on a VM always issues its request. *)
Theorem remote_call_budget (e : external) (mg : Managed) :
  (calls (Observe e mg) = [] \/ exists hg, calls (Observe e mg) = [CallGetHostGroupNodes hg])
  /\ (calls (Create e mg) = [] \/
      exists hg req, calls (Create e mg) = [CallCreateNode hg req])
  /\ (calls (Delete e mg) = [] \/
      exists hg name, calls (Delete e mg) = [CallDeleteVM hg name])
  /\ calls (Update e mg) = []
  /\ (forall cr, mg = ManagedVM cr -> calls (Create e mg) <> []).
Proof.
  destruct mg as [cr|o].
  - split; [|split; [|split; [|split]]].
    + destruct (Observe_paths e cr)
        as [(_ & ->)|[(_ & _ & ->)
           |(_ & _ & [(err' & _ & ->)|[(nodes & _ & _ & ->)|(nodes & node & _ & _ & ->)]])]];
        cbn; eauto.
    + destruct (Create_paths e cr) as [(err & _ & ->)|(resp & _ & ->)]; cbn; eauto.
    + destruct (Delete_paths e cr) as [(_ & ->)|(_ & answer & _ & ->)]; cbn; eauto.
    + reflexivity.
    + intros cr' _.
      destruct (Create_paths e cr) as [(err & _ & ->)|(resp & _ & ->)]; cbn; discriminate.
  - cbn. repeat split; auto.
Qed.

Lemma Create_sent (e : external) (cr : VM) hg req :
  calls (Create e (ManagedVM cr)) = [CallCreateNode hg req] ->
  hg = hostGroupFor e cr /\ req = requestFor cr.
Proof.
  destruct (Create_paths e cr) as [(err & _ & ->)|(resp & _ & ->)];
    cbn [calls]; intros [= <- <-]; auto.
Qed.

Lemma GetCondition_VM_SetConditions c (cr : VM) :
  xpv1.GetCondition
    (v1alpha1.Conditions (v1alpha1.Status (v1alpha1.SetConditions [c] cr)))
    (xpv1.Type_ c) = c.
Proof. apply GetCondition_SetCondition. Qed.


(** X12. The creation request is read off the spec: besides the defaults
    for a zero RAMGB or CPUs, the userdata, the SSH keys, the import user
    and the tags reach the request exactly as the resource has them, empty
    or not, and the request goes to the resolved host group. *)
Theorem Create_request_is_the_spec (e : external) (cr : VM) :
  let p := v1alpha1.ForProvider (v1alpha1.Spec cr) in
  calls (Create e (ManagedVM cr)) =
    [CallCreateNode
       (if String.eqb (v1alpha1.HostGroup p) "" then hostGroup e else v1alpha1.HostGroup p)
       {| sdk.RamGB := if v1alpha1.RAMGB p =? 0 then 4 else v1alpha1.RAMGB p;
          sdk.CPUs := if v1alpha1.CPUs p =? 0 then 2 else v1alpha1.CPUs p;
          sdk.Userdata := v1alpha1.Userdata p;
          sdk.SSHKeys := v1alpha1.SSHKeys p;
          sdk.ImportUser := v1alpha1.ImportUser p;
          sdk.Tags := v1alpha1.Tags p |}].
Proof.
  intros p. subst p.
  destruct (Create_paths e cr) as [(err & _ & ->)|(resp & _ & ->)]; reflexivity.
Qed.

(** X13. Create never writes the desired state or the identity of the
    resource (spec, name, namespace, deletion timestamp, annotations other
    than the external name), and, whether its request succeeds or fails, it
    leaves the observed state text as it was and the Ready condition at
    Creating: only a later Observe reports the VM running and available. *)
Theorem Create_frame (e : external) (mg : Managed) :
  keptOf (mg_after (Create e mg)) = keptOf mg
  /\ (forall cr, mg = ManagedVM cr ->
      exists cr',
        mg_after (Create e mg) = ManagedVM cr' /\
        v1alpha1.State (v1alpha1.AtProvider (v1alpha1.Status cr'))
          = v1alpha1.State (v1alpha1.AtProvider (v1alpha1.Status cr)) /\
        xpv1.GetCondition (v1alpha1.Conditions (v1alpha1.Status cr')) xpv1.TypeReady
          = xpv1.Creating).
Proof.
  destruct mg as [cr|o]; [|split; [reflexivity|discriminate]].
  destruct (Create_paths e cr) as [(err & _ & ->)|(resp & _ & ->)]; cbn [mg_after].
  - split; [reflexivity|]. intros cr0 [= <-]. eexists. split; [reflexivity|].
    split; [reflexivity|]. apply (GetCondition_SetCondition _ xpv1.Creating).
  - split.
    + cbn. rewrite delete_insert_eq. reflexivity.
    + intros cr0 [= <-]. eexists. split; [reflexivity|].
      split; [reflexivity|]. apply (GetCondition_SetCondition _ xpv1.Creating).
Qed.

(** X14. Create and Observe compose: after a Create whose response carries
    a non-empty hostname, on a VM not marked for deletion, an Observe whose
    listing contains a node of that hostname reports the VM as existing,
    with no error, observes that hostname and turns the Ready condition to
    Available. *)
Theorem Create_then_Observe (e e' : external) (cr : VM)
    (hg hg' : string) (req : sdk.SlicerCreateNodeRequest)
    (resp : sdk.SlicerCreateNodeResponse)
    (nodes : list sdk.SlicerNode) (node : sdk.SlicerNode) :
  meta.WasDeleted (v1alpha1.Meta cr) = false ->
  calls (Create e (ManagedVM cr)) = [CallCreateNode hg req] ->
  sdk.CreateNode (client e) hg req = inr resp ->
  sdk.resp_Hostname resp <> "" ->
  calls (Observe e' (mg_after (Create e (ManagedVM cr)))) = [CallGetHostGroupNodes hg'] ->
  sdk.GetHostGroupNodes (client e') hg' = inr nodes ->
  In node nodes ->
  sdk.Hostname node = sdk.resp_Hostname resp ->
  let o := Observe e' (mg_after (Create e (ManagedVM cr))) in
  managed.ResourceExists (fst (returned o)) = true
  /\ snd (returned o) = None
  /\ hostnameOf (mg_after o) = Some (sdk.resp_Hostname resp)
  /\ externalNameOf (mg_after o) = Some (sdk.resp_Hostname resp)
  /\ xpv1.GetCondition (conditionsOf (mg_after o)) xpv1.TypeReady = xpv1.Available.
Proof.
  intros Hlive Hcalls Hresp Hhost Hcalls' Hlist Hin Hnode o. subst o.
  apply Create_sent in Hcalls as [-> ->].
  destruct (Create_paths e cr) as [(err & Hanswer & _)|(resp' & Hanswer & Ho)];
    [congruence|].
  assert (resp' = resp) by congruence. subst resp'.
  rewrite Ho in Hcalls' |- *. cbn [mg_after] in Hcalls' |- *.
  match goal with |- context [Observe e' (ManagedVM ?cr')] =>
    set (created := cr') in *;
    assert (Hname : meta.GetExternalName created = sdk.resp_Hostname resp)
      by (unfold created, meta.GetExternalName; cbn; rewrite lookup_insert_eq; reflexivity);
    destruct (Observe_paths e' created)
      as [(Hdel & _)|[(_ & Hempty & _)
         |(_ & _ & [(err & Hlist' & Ho')
                   |[(nodes' & Hlist' & Hfound & Ho')
                    |(nodes' & node' & Hlist' & Hfound & Ho')]])]]
  end.
  - change (meta.WasDeleted (v1alpha1.Meta cr) = true) in Hdel. congruence.
  - congruence.
  - rewrite Ho' in Hcalls'. cbn [calls] in Hcalls'. injection Hcalls' as <-. congruence.
  - rewrite Ho' in Hcalls'. cbn [calls] in Hcalls'. injection Hcalls' as <-.
    assert (nodes' = nodes) by congruence. subst nodes'.
    exfalso. apply (proj1 (found_None _ _) Hfound node Hin). congruence.
  - rewrite Ho'. cbn.
    apply found_In in Hfound as [_ Hnode'].
    split; [reflexivity|]. split; [reflexivity|].
    split; [f_equal; etransitivity; [exact Hnode'|exact Hname]|].
    split; [f_equal; exact Hname|].
    apply (GetCondition_SetCondition _ xpv1.Available).
Qed.

(** X15. A creation response without a hostname leaves the VM unbound: the
    external name is then empty, so the next Observe reports non-existence
    without asking the remote and a later Delete deletes nothing, although
    a remote VM was created. *)
Theorem Create_without_hostname_orphans (e e' : external) (cr : VM)
    (hg : string) (req : sdk.SlicerCreateNodeRequest)
    (resp : sdk.SlicerCreateNodeResponse) :
  calls (Create e (ManagedVM cr)) = [CallCreateNode hg req] ->
  sdk.CreateNode (client e) hg req = inr resp ->
  sdk.resp_Hostname resp = "" ->
  snd (returned (Create e (ManagedVM cr))) = None
  /\ externalNameOf (mg_after (Create e (ManagedVM cr))) = Some ""
  /\ calls (Observe e' (mg_after (Create e (ManagedVM cr)))) = []
  /\ managed.ResourceExists
       (fst (returned (Observe e' (mg_after (Create e (ManagedVM cr)))))) = false
  /\ calls (Delete e' (mg_after (Create e (ManagedVM cr)))) = []
  /\ snd (returned (Delete e' (mg_after (Create e (ManagedVM cr))))) = None.
Proof.
  intros Hcalls Hresp Hhost. apply Create_sent in Hcalls as [-> ->].
  destruct (Create_paths e cr) as [(err & Hanswer & _)|(resp' & Hanswer & Ho)];
    [congruence|].
  assert (resp' = resp) by congruence. subst resp'.
  rewrite Ho. cbn [mg_after returned snd].
  match goal with |- context [Observe e' (ManagedVM ?cr')] =>
    set (created := cr') in *;
    assert (Hname : meta.GetExternalName created = "")
      by (unfold created, meta.GetExternalName; cbn; rewrite lookup_insert_eq; exact Hhost)
  end.
  split; [reflexivity|]. split; [cbn; congruence|].
  destruct (Observe_paths e' created)
    as [(_ & ->)|[(_ & _ & ->)|(_ & Hnamed & _)]]; [| |contradiction].
  - destruct (Delete_paths e' created) as [(_ & ->)|(Hnamed & _)];
      [repeat split|contradiction].
  - destruct (Delete_paths e' created) as [(_ & ->)|(Hnamed & _)];
      [repeat split|contradiction].
Qed.


(** X17. Create and Delete compose: after a Create whose response carries a
    non-empty hostname, a Delete through the same external client asks the
    remote to delete exactly that hostname, in the host group the VM was
    created in. *)
Theorem Create_then_Delete (e : external) (cr : VM)
    (hg : string) (req : sdk.SlicerCreateNodeRequest)
    (resp : sdk.SlicerCreateNodeResponse) :
  calls (Create e (ManagedVM cr)) = [CallCreateNode hg req] ->
  sdk.CreateNode (client e) hg req = inr resp ->
  sdk.resp_Hostname resp <> "" ->
  calls (Delete e (mg_after (Create e (ManagedVM cr))))
    = [CallDeleteVM hg (sdk.resp_Hostname resp)].
Proof.
  intros Hcalls Hresp Hhost. apply Create_sent in Hcalls as [-> ->].
  destruct (Create_paths e cr) as [(err & Hanswer & _)|(resp' & Hanswer & Ho)];
    [congruence|].
  assert (resp' = resp) by congruence. subst resp'.
  rewrite Ho. cbn [mg_after].
  match goal with |- context [Delete e (ManagedVM ?cr')] =>
    set (created := cr') in *;
    assert (Hname : meta.GetExternalName created = sdk.resp_Hostname resp)
      by (unfold created, meta.GetExternalName; cbn; rewrite lookup_insert_eq; reflexivity);
    destruct (Delete_paths e created) as [(Hempty & _)|(_ & answer & _ & ->)]
  end.
  - congruence.
  - cbn [calls]. rewrite Hname. reflexivity.
Qed.

(** X18. Along every sequence of Observe, Create, Update and Delete, with
    whatever clients, the adapter never writes the desired state or the
    identity of the resource: the spec, the name, the namespace, the
    deletion timestamp and every annotation other than the external name
    are at the end what they were at the start. *)
Theorem runs_keep_desired_state (ops : list (Operation * external)) (mg : Managed) :
  keptOf (steps ops mg) = keptOf mg.
Proof.
  unfold steps. revert mg.
  induction ops as [|[op e] ops IH]; intros mg; [reflexivity|].
  cbn [fold_left]. rewrite IH. destruct op; cbn [step].
  - destruct mg as [cr|o]; [|reflexivity].
    destruct (Observe_paths e cr)
      as [(_ & ->)|[(_ & _ & ->)
         |(_ & _ & [(err' & _ & ->)|[(nodes & _ & _ & ->)|(nodes & node & _ & _ & ->)]])]];
      reflexivity.
  - destruct mg as [cr|o]; [|reflexivity].
    destruct (Create_paths e cr) as [(err & _ & ->)|(resp & _ & ->)]; cbn [mg_after].
    + reflexivity.
    + cbn. rewrite delete_insert_eq. reflexivity.
  - reflexivity.
  - destruct mg as [cr|o]; [|reflexivity].
    destruct (Delete_paths e cr) as [(_ & ->)|(_ & answer & _ & ->)]; reflexivity.
Qed.

(** * Instances of the further properties *)

Import Cases.



Lemma Connect_fetch_scope_witness :
  exists cr ref,
    ManagedVM fresh = ManagedVM cr
    /\ v1alpha1.ProviderConfigReference_ (v1alpha1.Spec cr) = Some ref
    /\ v1alpha1.ref_Kind ref = "ProviderConfig".
Proof.
  destruct (Connect_fetch_scope extractor newClient tracking (ManagedVM fresh)
              ProviderConfig {| nn_Namespace := "default"; nn_Name := "default" |})
    as (cr & ref & Hmg & Href & _ & [(_ & Hkind & _)|(Hobj & _)]).
  - right. left. reflexivity.
  - exists cr, ref. auto.
  - discriminate Hobj.
Defined.

Lemma Connect_surfaces_failures_witness :
  connect_end (Connect extractor newClient untracked (ManagedVM odd))
    = Returns (None, Some "cannot track ProviderConfig usage: conflict")
  /\ connect_end (Connect extractor newClient unconfigured (ManagedVM clustered))
       = Returns (None, Some "cannot get ClusterProviderConfig: not found")
  /\ connect_end (Connect denied newClient tracking (ManagedVM fresh))
       = Returns (None, Some "cannot get credentials: secret not found").
Proof.
  split; [|split].
  - rewrite (proj1 (Connect_surfaces_failures extractor newClient untracked odd)
               "conflict" eq_refl). reflexivity.
  - rewrite (proj1 (proj2 (Connect_surfaces_failures extractor newClient unconfigured
                             clustered))
               {| v1alpha1.ref_Kind := "ClusterProviderConfig";
                  v1alpha1.ref_Name := "default" |}
               ClusterProviderConfig "not found" eq_refl eq_refl eq_refl eq_refl).
    reflexivity.
  - rewrite (proj2 (proj2 (Connect_surfaces_failures denied newClient tracking fresh))
               {| v1alpha1.ref_Kind := "ProviderConfig"; v1alpha1.ref_Name := "default" |}
               ProviderConfig
               {| apisv1alpha1.Credentials := credentials; apisv1alpha1.URL := "";
                  apisv1alpha1.HostGroup := "" |}
               "secret not found" eq_refl eq_refl eq_refl eq_refl eq_refl).
    reflexivity.
Defined.

Lemma errNotVM_exactly_for_other_kinds_witness :
  calls (Delete e_up (ManagedOther (v1alpha1.Meta bound))) = []
  /\ snd (returned (Create e_down (ManagedVM fresh)))
       <> Some "managed resource is not a VM custom resource".
Proof.
  destruct (errNotVM_exactly_for_other_kinds e_up (ManagedOther (v1alpha1.Meta bound)))
    as (_ & _ & _ & Hquiet).
  destruct (Hquiet (ex_intro _ (v1alpha1.Meta bound) eq_refl))
    as (_ & _ & _ & _ & Hcalls & _).
  split; [exact Hcalls|].
  intros Herr.
  apply (proj1 (proj1 (proj2 (errNotVM_exactly_for_other_kinds e_down (ManagedVM fresh)))))
    in Herr as (o & Ho).
  discriminate Ho.
Defined.

Lemma Observe_listing_failure_witness :
  returned (Observe e_down (ManagedVM labelled))
    = (managed.ExternalObservation_zero, Some "cannot list VMs: connection refused")
  /\ mg_after (Observe e_down (ManagedVM labelled)) = ManagedVM labelled.
Proof.
  rewrite (Observe_listing_failure e_down labelled "custom" "connection refused"
             eq_refl eq_refl).
  split; reflexivity.
Defined.

Lemma Observe_frame_witness :
  mg_after (Observe e_lost (ManagedVM labelled)) = ManagedVM labelled.
Proof.
  apply (proj2 (proj2 (Observe_frame e_lost (ManagedVM labelled)))). reflexivity.
Defined.

Lemma Observe_exists_is_current_witness :
  managed.ResourceUpToDate (fst (returned (Observe e_up (ManagedVM bound)))) = true
  /\ snd (returned (Observe e_up (ManagedVM bound))) = None.
Proof.
  destruct (Observe_exists_is_current e_up (ManagedVM bound) eq_refl)
    as (Hcurrent & _ & Hok & _).
  split; assumption.
Defined.

Lemma remote_call_budget_witness :
  calls (Create e_down (ManagedVM leaving)) <> [].
Proof.
  apply (proj2 (proj2 (proj2 (proj2 (remote_call_budget e_down (ManagedVM leaving)))))
           leaving eq_refl).
Defined.


Lemma Create_frame_witness :
  exists cr',
    mg_after (Create e_up (ManagedVM labelled)) = ManagedVM cr'
    /\ v1alpha1.State (v1alpha1.AtProvider (v1alpha1.Status cr')) = "running"
    /\ xpv1.GetCondition (v1alpha1.Conditions (v1alpha1.Status cr')) xpv1.TypeReady
         = xpv1.Creating.
Proof.
  exact (proj2 (Create_frame e_up (ManagedVM labelled)) labelled eq_refl).
Defined.

Lemma Create_then_Observe_witness :
  managed.ResourceExists
    (fst (returned (Observe e_up (mg_after (Create e_up (ManagedVM fresh)))))) = true
  /\ hostnameOf (mg_after (Observe e_up (mg_after (Create e_up (ManagedVM fresh)))))
       = Some "vm-2".
Proof.
  destruct (Create_then_Observe e_up e_up fresh "api" "api"
              {| sdk.RamGB := 4; sdk.CPUs := 2; sdk.Userdata := "";
                 sdk.SSHKeys := []; sdk.ImportUser := ""; sdk.Tags := [] |}
              {| sdk.resp_Hostname := "vm-2"; sdk.resp_IP := "10.0.0.3";
                 sdk.resp_CreatedAt := t1 |}
              nodes (node "vm-2" "10.0.0.3" t1)
              eq_refl eq_refl eq_refl ltac:(discriminate) eq_refl eq_refl
              (or_introl eq_refl) eq_refl)
    as (Hexists & _ & Hhost & _).
  split; assumption.
Defined.

Lemma Create_without_hostname_orphans_witness :
  externalNameOf (mg_after (Create e_nameless (ManagedVM fresh))) = Some ""
  /\ calls (Observe e_up (mg_after (Create e_nameless (ManagedVM fresh)))) = []
  /\ calls (Delete e_up (mg_after (Create e_nameless (ManagedVM fresh)))) = [].
Proof.
  destruct (Create_without_hostname_orphans e_nameless e_up fresh "api"
              {| sdk.RamGB := 4; sdk.CPUs := 2; sdk.Userdata := "";
                 sdk.SSHKeys := []; sdk.ImportUser := ""; sdk.Tags := [] |}
              {| sdk.resp_Hostname := ""; sdk.resp_IP := "10.0.0.4";
                 sdk.resp_CreatedAt := t1 |}
              eq_refl eq_refl eq_refl)
    as (_ & Hname & Hquiet & _ & Hkept & _).
  auto.
Defined.

Lemma Create_then_Delete_witness :
  calls (Delete e_up (mg_after (Create e_up (ManagedVM sized))))
    = [CallDeleteVM "custom" "vm-2"].
Proof.
  exact (Create_then_Delete e_up sized "custom"
           {| sdk.RamGB := 8; sdk.CPUs := 3; sdk.Userdata := "";
              sdk.SSHKeys := []; sdk.ImportUser := ""; sdk.Tags := [] |}
           {| sdk.resp_Hostname := "vm-2"; sdk.resp_IP := "10.0.0.3";
              sdk.resp_CreatedAt := t1 |}
           eq_refl eq_refl ltac:(discriminate)).
Defined.
